(** * Oracle Data Guard provisioning scripts: a shallow embedding

    The development follows the two scripts of the repository,
    [setup_oracle.py] and [setup_dataguard.py].  Pure helpers are Rocq
    functions; code that talks to the outside world (gcloud, the clock) is a
    program over explicit effects, run against an environment; the PL/SQL
    blocks sent to the standby are functions over a small table model.
    Logging calls are left out: they do not influence control flow. *)

From Stdlib Require Import String Ascii List ZArith QArith Qminmax Qabs Lia Lqa Bool Finite Permutation.
From stdpp Require Import gmap strings sorting.
Import ListNotations.

Local Open Scope string_scope.
Local Open Scope list_scope.

(** * Part I: the programs and the models they run against *)

(** ** Python built-ins used by the scripts *)

Module Py.

(** [s.split(sep)] for a one-character separator: every occurrence cuts. *)
Fixpoint split (sep : ascii) (s : string) : list string :=
  match s with
  | EmptyString => [EmptyString]
  | String c s' =>
      if Ascii.eqb c sep then EmptyString :: split sep s'
      else match split sep s' with
           | [] => [String c EmptyString]
           | w :: ws => String c w :: ws
           end
  end.

(** Characters [str.strip()] removes, within ASCII: tab, line feed, vertical
    tab, form feed, carriage return, the four separators 28-31 and space. *)
Definition isspace (c : ascii) : bool :=
  let n := nat_of_ascii c in
  (Nat.leb 9 n && Nat.leb n 13) || (Nat.leb 28 n && Nat.leb n 32).

Fixpoint lstrip (s : string) : string :=
  match s with
  | String c s' => if isspace c then lstrip s' else s
  | EmptyString => EmptyString
  end.

Fixpoint rstrip (s : string) : string :=
  match s with
  | EmptyString => EmptyString
  | String c s' =>
      match rstrip s' with
      | EmptyString => if isspace c then EmptyString else String c EmptyString
      | t => String c t
      end
  end.

Definition strip (s : string) : string := rstrip (lstrip s).

(** The class [\d] of the [re] module, within ASCII. *)
Definition isdigit (c : ascii) : bool :=
  let n := nat_of_ascii c in Nat.leb 48 n && Nat.leb n 57.

(** The longest prefix of digits: what a greedy [\d+] or [\d*] consumes. *)
Fixpoint take_digits (s : string) : string :=
  match s with
  | String c s' => if isdigit c then String c (take_digits s') else EmptyString
  | EmptyString => EmptyString
  end.

(** [s] minus the literal prefix [p], when [s] starts with it. *)
Fixpoint strip_prefix (p s : string) : option string :=
  match p, s with
  | EmptyString, _ => Some s
  | String a p', String b s' => if Ascii.eqb a b then strip_prefix p' s' else None
  | String _ _, EmptyString => None
  end.

(** Truthiness of an optional string: [None] and the empty string are falsy. *)
Definition truthy (o : option string) : bool :=
  match o with
  | Some (String _ _) => true
  | _ => false
  end.

(** Exceptions the scripts raise or let through. *)
Inductive exn : Type :=
  | CalledProcessError (returncode : Z)
  | RuntimeError (msg : string)
  | TimeoutError (instance : string) (timeout : Q)
  | ValueError (msg : string)
  | IndexError (msg : string)
  | SystemExit (code : Z).

End Py.

(** ** Names derived from instance identifiers *)

Module Names.
Import Py.

(** [parse_instance_number] of setup_oracle.py:
    [re.match(r"ora-(\d+)", instance)], then [group(1)]. *)
Definition parse_instance_number (instance : string) : exn + string :=
  match strip_prefix "ora-" instance with
  | Some rest =>
      match take_digits rest with
      | EmptyString =>
          inl (ValueError ("Instance name '" +:+ instance +:+ "' must match pattern 'ora-<number>'"))
      | num => inr num
      end
  | None =>
      inl (ValueError ("Instance name '" +:+ instance +:+ "' must match pattern 'ora-<number>'"))
  end.

(** [get_cdb_diskgroup_name] of setup_oracle.py. *)
Definition get_cdb_diskgroup_name (instance : string) : exn + string :=
  match parse_instance_number instance with
  | inl e => inl e
  | inr num => inr ("DGORA" +:+ num)
  end.

(** [get_db_name] of setup_oracle.py. *)
Definition get_db_name (instance : string) : exn + string :=
  match parse_instance_number instance with
  | inl e => inl e
  | inr num => inr ("ORA" +:+ num)
  end.

(** The names [main] of setup_dataguard.py derives before it contacts any
    instance. *)
Record replication_names : Type := {
  primary_num : string;
  standby_num : string;
  db_name : string;
  primary_db_unique_name : string;
  standby_db_unique_name : string;
  primary_diskgroup : string;
  standby_diskgroup : string
}.

(** [ident.split("-")[1]]. *)
Definition split_suffix (ident : string) : exn + string :=
  match nth_error (split "-" ident) 1 with
  | Some num => inr num
  | None => inl (IndexError "list index out of range")
  end.

(** Lines 950-961 of setup_dataguard.py. *)
Definition derive_names (primary standby : string) : exn + replication_names :=
  match split_suffix primary with
  | inl e => inl e
  | inr pnum =>
      match split_suffix standby with
      | inl e => inl e
      | inr snum =>
          inr {| primary_num := pnum;
                 standby_num := snum;
                 db_name := "ORA" +:+ pnum;
                 primary_db_unique_name := "ORA" +:+ pnum;
                 standby_db_unique_name := "ORA" +:+ pnum +:+ "_STBY";
                 primary_diskgroup := "DGORA" +:+ pnum;
                 standby_diskgroup := "DGORA" +:+ snum |}
      end
  end.

End Names.

(** ** Commands and effects *)

Module Gcloud.
Import Py.

(** The command texts the scripts send over [gcloud compute ssh], one
    constructor per text, with the values interpolated into it. *)
Inductive remote_command : Type :=
  (* setup_oracle.py *)
  | ProbeTrue
  | ConfigureKernel
  | SetupPrerequisites
  | CreateConfigFiles (cdb_diskgroup : string) (extra_diskgroups : list string)
  | InstallOracle (swlib_bucket cdb_diskgroup db_name instance : string)
  | ConfigureOracleSga
  | ConfigureAsmfd (all_diskgroups : list string)
  | ConfigureAsmDiskstring (all_diskgroups : list string) (db_name : string)
  | ValidateSetup (all_diskgroups : list string) (db_name : string)
  (* setup_dataguard.py *)
  | ConfigurePrimaryForDataguard (db_unique_name standby_db_unique_name : string)
  | ConfigureBashProfiles
  | ConfigureTnsEntries (db_name primary_db_unique_name standby_db_unique_name
                         primary_ip standby_ip : string)
  | ConfigureStaticListener (db_name : string)
  | CreatePasswordFile (db_name sys_password : string)
  | InstallPasswordFile (db_name : string)
  | RmF (path : string)
  | RestartDatabase (db_name : string)
  | EchoOracleHome
  | Md5sum (path : string)
  | CopyForScp (orapw_path tmp_path : string)
  | MoveIntoPlace (tmp_path orapw_path : string)
  | RestartStandbyMount (db_name : string)
  | RemoveStandbyDatabase (db_name diskgroup : string)
  | CreateStandbyPfile (db_name db_unique_name primary_db_unique_name diskgroup : string)
  | StartStandbyNomount (db_name : string)
  | DuplicateDatabase (db_name primary_db_unique_name standby_db_unique_name
                       primary_diskgroup standby_diskgroup
                       primary_ip standby_ip sys_password : string)
  | StartManagedRecovery (db_name : string)
  | FixStandbyRedoLogs (db_name diskgroup : string)
  | EnableLogShipping (standby_ip db_name standby_db_unique_name : string)
  | RegisterStandbyWithCluster (db_name diskgroup : string)
  | ValidatePrimary
  | ValidateStandby.

(** An end of [gcloud compute scp]: a local path, or [f"{instance}:{path}"]. *)
Inductive location : Type :=
  | Local (path : string)
  | Remote (instance path : string).

(** The gcloud invocations of the two scripts. *)
Inductive gcloud : Type :=
  | ConfigGetValue (key : string)
  | ComputeSsh (instance zone project : string) (command : remote_command)
  | ComputeScp (zone project : string) (src dst : location)
  | InstancesDescribe (instance zone project : string)
  | InstancesCreate (instance zone project cdb_diskgroup : string)
                    (extra_diskgroups : list string)
  | InstancesDelete (instance zone project : string)
  | InstancesReset (instance zone project : string).

(** The arguments of one [subprocess.run] call; [timeout] is the keyword of
    that name, [None] when the caller does not pass it. *)
Record subprocess_call : Type := {
  cmd : gcloud;
  check : bool;
  capture_output : bool;
  text : bool;
  timeout : option Q
}.

Record completed_process : Type := {
  returncode : Z;
  stdout : string
}.

(** Programs: what a Python function does, as a tree of its calls to
    [subprocess.run], [time.time] and [time.sleep].  [Spin] stands for a
    [while] loop that has not ended within the unfoldings it was given. *)
Inductive py (A : Type) : Type :=
  | Return (a : A)
  | Raise (e : exn)
  | Spin
  | SubprocessRun (c : subprocess_call) (k : completed_process -> py A)
  | TimeTime (k : Q -> py A)
  | TimeSleep (secs : Q) (k : py A).

Arguments Return {A} a.
Arguments Raise {A} e.
Arguments Spin {A}.
Arguments SubprocessRun {A} c k.
Arguments TimeTime {A} k.
Arguments TimeSleep {A} secs k.

Fixpoint bind {A B : Type} (m : py A) (f : A -> py B) : py B :=
  match m with
  | Return a => f a
  | Raise e => Raise e
  | Spin => Spin
  | SubprocessRun c k => SubprocessRun c (fun r => bind (k r) f)
  | TimeTime k => TimeTime (fun t => bind (k t) f)
  | TimeSleep d k => TimeSleep d (bind k f)
  end.

#[export] Instance py_ret : MRet py := @Return.
#[export] Instance py_bind : MBind py := fun A B f m => bind m f.

(** [subprocess.run(cmd, check=..., capture_output=..., text=True)]: with
    [check], a non-zero exit status raises [CalledProcessError]. *)
Definition subprocess_run (c : subprocess_call) : py completed_process :=
  SubprocessRun c (fun r =>
    if check c && negb (returncode r =? 0)%Z
    then Raise (CalledProcessError (returncode r))
    else Return r).

(** [run_cmd(cmd, check=True, capture=False)] of both scripts. *)
Definition run_cmd (cmd : gcloud) (check capture : bool) : py completed_process :=
  subprocess_run {| cmd := cmd; check := check; capture_output := capture;
                    text := true; timeout := None |}.

(** The call [run_cmd] makes. *)
Definition call_of (g : gcloud) (chk cap : bool) : subprocess_call :=
  {| cmd := g; check := chk; capture_output := cap; text := true; timeout := None |}.

(** [get_gcloud_config]. *)
Definition get_gcloud_config (key : string) : py string :=
  result ← run_cmd (ConfigGetValue key) true true;
  mret (strip (stdout result)).

(** [gcloud_ssh]. *)
Definition gcloud_ssh (instance zone project : string) (command : remote_command)
  : py completed_process :=
  run_cmd (ComputeSsh instance zone project command) true false.

(** [gcloud_ssh_capture] of setup_dataguard.py. *)
Definition gcloud_ssh_capture (instance zone project : string)
    (command : remote_command) : py string :=
  result ← run_cmd (ComputeSsh instance zone project command) true true;
  mret (strip (stdout result)).

(** [gcloud_scp] of setup_dataguard.py. *)
Definition gcloud_scp (src dst : location) (zone project : string) : py unit :=
  run_cmd (ComputeScp zone project src dst) true false;;
  mret tt.

(** [get_instance_ip] of setup_dataguard.py. *)
Definition get_instance_ip (instance zone project : string) : py string :=
  result ← run_cmd (InstancesDescribe instance zone project) true true;
  mret (strip (stdout result)).

(** *** Running a program against an environment *)

(** What the outside world answers, as a state machine. *)
Record env (St : Type) : Type := {
  on_run : St -> subprocess_call -> St * completed_process;
  on_time : St -> St * Q;
  on_sleep : St -> Q -> St
}.
Arguments on_run {St} e s c.
Arguments on_time {St} e s.
Arguments on_sleep {St} e s d.

Inductive event : Type :=
  | Ran (c : subprocess_call) (r : completed_process)
  | Clock (t : Q)
  | Slept (secs : Q).

Inductive outcome (A : Type) : Type :=
  | Returned (a : A)
  | Raised (e : exn)
  | Unfinished.
Arguments Returned {A} a.
Arguments Raised {A} e.
Arguments Unfinished {A}.

(** Final state, the events in the order they happened, and how it ended. *)
Fixpoint run {St A : Type} (E : env St) (s : St) (p : py A)
  : St * list event * outcome A :=
  match p with
  | Return a => (s, [], Returned a)
  | Raise e => (s, [], Raised e)
  | Spin => (s, [], Unfinished)
  | SubprocessRun c k =>
      let '(s1, r) := on_run E s c in
      let '(s2, tr, o) := run E s1 (k r) in
      (s2, Ran c r :: tr, o)
  | TimeTime k =>
      let '(s1, t) := on_time E s in
      let '(s2, tr, o) := run E s1 (k t) in
      (s2, Clock t :: tr, o)
  | TimeSleep d k =>
      let '(s2, tr, o) := run E (on_sleep E s d) k in
      (s2, Slept d :: tr, o)
  end.

(** The calls of a trace that move a file through [gcloud compute scp]. *)
Definition is_transfer (ev : event) : bool :=
  match ev with
  | Ran c _ => match cmd c with ComputeScp _ _ _ _ => true | _ => false end
  | _ => false
  end.

(** Commands that only read on the remote side. *)
Definition read_only (command : remote_command) : bool :=
  match command with
  | ProbeTrue | EchoOracleHome | Md5sum _ | ValidatePrimary | ValidateStandby
  | ValidateSetup _ _ => true
  | _ => false
  end.

(** Calls that may change something on an instance: an upload, or an ssh
    command that is not a query; creating, deleting or resetting one. *)
Definition is_remote_mutation (ev : event) : bool :=
  match ev with
  | Ran c _ =>
      match cmd c with
      | ComputeSsh _ _ _ command => negb (read_only command)
      | ComputeScp _ _ _ (Remote _ _) => true
      | InstancesCreate _ _ _ _ _ | InstancesDelete _ _ _ | InstancesReset _ _ _ => true
      | _ => false
      end
  | _ => false
  end.

Definition is_restart (ev : event) : bool :=
  match ev with
  | Ran c _ =>
      match cmd c with
      | ComputeSsh _ _ _ (RestartStandbyMount _)
      | ComputeSsh _ _ _ (RestartDatabase _) => true
      | _ => false
      end
  | _ => false
  end.

End Gcloud.

(** ** Command texts *)

Module CommandText.
Import Py Gcloud.

Definition nl : string := String (ascii_of_nat 10) EmptyString.

(** A triple-quoted text, given line by line. *)
Definition unlines (lines : list string) : string := String.concat nl lines.

(** [commands] of [configure_primary_for_dataguard]. *)
Definition configure_primary_for_dataguard_commands
    (db_unique_name standby_db_unique_name : string) : list string :=
  [ "";
    "sudo su - oracle <<'EOF'";
    "sqlplus -s / as sysdba <<'SQLEND'";
    "-- Enable force logging";
    "ALTER DATABASE FORCE LOGGING;";
    "";
    "-- Set Data Guard related parameters";
    "ALTER SYSTEM SET DB_UNIQUE_NAME='" +:+ db_unique_name +:+ "' SCOPE=SPFILE;";
    "ALTER SYSTEM SET LOG_ARCHIVE_CONFIG='DG_CONFIG=(" +:+ db_unique_name +:+ ","
      +:+ standby_db_unique_name +:+ ")' SCOPE=BOTH;";
    "ALTER SYSTEM SET LOG_ARCHIVE_DEST_1='LOCATION=USE_DB_RECOVERY_FILE_DEST VALID_FOR=(ALL_LOGFILES,ALL_ROLES) DB_UNIQUE_NAME="
      +:+ db_unique_name +:+ "' SCOPE=BOTH;";
    "ALTER SYSTEM SET LOG_ARCHIVE_DEST_2='SERVICE=" +:+ standby_db_unique_name
      +:+ " ASYNC VALID_FOR=(ONLINE_LOGFILES,PRIMARY_ROLE) DB_UNIQUE_NAME="
      +:+ standby_db_unique_name +:+ " REOPEN=60 MAX_FAILURE=0' SCOPE=BOTH;";
    "ALTER SYSTEM SET LOG_ARCHIVE_DEST_STATE_2=DEFER SCOPE=BOTH;";
    "ALTER SYSTEM SET STANDBY_FILE_MANAGEMENT=AUTO SCOPE=BOTH;";
    "ALTER SYSTEM SET FAL_SERVER='" +:+ standby_db_unique_name +:+ "' SCOPE=BOTH;";
    "";
    "-- Create standby redo logs (same size as online redo logs + 1 extra group)";
    "-- First, get the redo log size";
    "SET SERVEROUTPUT ON";
    "DECLARE";
    "    v_log_size NUMBER;";
    "    v_groups NUMBER;";
    "BEGIN";
    "    SELECT BYTES/1024/1024, COUNT(*) INTO v_log_size, v_groups FROM V$LOG GROUP BY BYTES;";
    "";
    "    -- Create standby redo log groups (one more than online redo log groups)";
    "    FOR i IN 1..v_groups+1 LOOP";
    "        BEGIN";
    "            EXECUTE IMMEDIATE 'ALTER DATABASE ADD STANDBY LOGFILE SIZE ' || v_log_size || 'M';";
    "            DBMS_OUTPUT.PUT_LINE('Created standby redo log group ' || i);";
    "        EXCEPTION";
    "            WHEN OTHERS THEN";
    "                DBMS_OUTPUT.PUT_LINE('Group ' || i || ' may already exist: ' || SQLERRM);";
    "        END;";
    "    END LOOP;";
    "END;";
    "/";
    "";
    "-- Show configuration";
    "SELECT FORCE_LOGGING, LOG_MODE FROM V$DATABASE;";
    "SELECT GROUP#, THREAD#, BYTES/1024/1024 AS SIZE_MB, STATUS FROM V$STANDBY_LOG;";
    "SQLEND";
    "EOF";
    "" ].

(** [commands] of [enable_log_shipping]. *)
Definition enable_log_shipping_commands
    (standby_ip db_name standby_db_unique_name : string) : list string :=
  let standby_ezconnect := "//" +:+ standby_ip +:+ ":1521/" +:+ db_name in
  [ "";
    "sudo su - oracle <<'EOF'";
    "sqlplus -s / as sysdba <<'SQLEND'";
    "-- Configure log archive dest 2 using EZConnect with automatic retry";
    "-- REOPEN=60: Retry failed connections every 60 seconds";
    "-- MAX_FAILURE=0: Unlimited retries (0 means never give up)";
    "ALTER SYSTEM SET LOG_ARCHIVE_DEST_2='SERVICE=" +:+ standby_ezconnect
      +:+ " ASYNC VALID_FOR=(ONLINE_LOGFILES,PRIMARY_ROLE) DB_UNIQUE_NAME="
      +:+ standby_db_unique_name +:+ " REOPEN=60 MAX_FAILURE=0' SCOPE=BOTH;";
    "ALTER SYSTEM SET LOG_ARCHIVE_DEST_STATE_2=ENABLE SCOPE=BOTH;";
    "ALTER SYSTEM SET LOG_ARCHIVE_CONFIG='DG_CONFIG=(ORA1,"
      +:+ standby_db_unique_name +:+ ")' SCOPE=BOTH;";
    "ALTER SYSTEM SWITCH LOGFILE;";
    "";
    "-- Verify log shipping status";
    "SELECT DEST_ID, STATUS, DESTINATION FROM V$ARCHIVE_DEST WHERE DEST_ID <= 2;";
    "SQLEND";
    "EOF";
    "" ].

(** The text behind a command, for the commands whose text is reproduced
    here. *)
Definition command_text (command : remote_command) : option string :=
  match command with
  | ProbeTrue => Some "true"
  | EchoOracleHome => Some "sudo su - oracle -c 'echo $ORACLE_HOME'"
  | Md5sum path => Some ("sudo md5sum " +:+ path +:+ " | awk '{print $1}'")
  | CopyForScp orapw_path tmp_path =>
      Some ("sudo cp " +:+ orapw_path +:+ " " +:+ tmp_path
            +:+ " && sudo chmod 644 " +:+ tmp_path)
  | MoveIntoPlace tmp_path orapw_path =>
      Some (unlines [ "";
                      "sudo mv " +:+ tmp_path +:+ " " +:+ orapw_path;
                      "sudo chown oracle:oinstall " +:+ orapw_path;
                      "sudo chmod 640 " +:+ orapw_path;
                      "" ])
  | RmF path => Some ("sudo rm -f " +:+ path)
  | RestartStandbyMount db_name =>
      Some (unlines [ "";
                      "sudo su - oracle <<'EOF'";
                      "export ORACLE_SID=" +:+ db_name;
                      "sqlplus -s / as sysdba <<'SQLEND'";
                      "SHUTDOWN IMMEDIATE;";
                      "STARTUP MOUNT;";
                      "SQLEND";
                      "EOF";
                      "" ])
  | ConfigurePrimaryForDataguard db_unique_name standby_db_unique_name =>
      Some (unlines (configure_primary_for_dataguard_commands
                       db_unique_name standby_db_unique_name))
  | EnableLogShipping standby_ip db_name standby_db_unique_name =>
      Some (unlines (enable_log_shipping_commands
                       standby_ip db_name standby_db_unique_name))
  | _ => None
  end.


End CommandText.

(** ** The password-file stages of setup_dataguard.py *)

Module PasswordFile.
Import Py Gcloud.

(** [setup_password_file]. *)
Definition setup_password_file
    (primary_instance standby_instance zone project db_name sys_password : string)
  : py unit :=
  gcloud_ssh primary_instance zone project (CreatePasswordFile db_name sys_password);;
  gcloud_scp (Remote primary_instance ("/tmp/orapw" +:+ db_name))
             (Local "/tmp/orapw_dataguard") zone project;;
  gcloud_scp (Local "/tmp/orapw_dataguard")
             (Remote standby_instance ("/tmp/orapw" +:+ db_name)) zone project;;
  gcloud_ssh standby_instance zone project (InstallPasswordFile db_name);;
  gcloud_ssh primary_instance zone project (RmF ("/tmp/orapw" +:+ db_name));;
  gcloud_ssh primary_instance zone project (RestartDatabase db_name);;
  mret tt.

(** [sync_password_file_after_duplication]. *)
Definition sync_password_file_after_duplication
    (primary_instance standby_instance zone project db_name : string) : py unit :=
  let orapw_file := "orapw" +:+ db_name in
  oracle_home ← gcloud_ssh_capture primary_instance zone project EchoOracleHome;
  let orapw_path := oracle_home +:+ "/dbs/" +:+ orapw_file in
  primary_md5 ← gcloud_ssh_capture primary_instance zone project (Md5sum orapw_path);
  standby_md5 ← gcloud_ssh_capture standby_instance zone project (Md5sum orapw_path);
  if String.eqb primary_md5 standby_md5 then mret tt
  else
    gcloud_ssh primary_instance zone project
      (CopyForScp orapw_path ("/tmp/" +:+ orapw_file));;
    gcloud_scp (Remote primary_instance ("/tmp/" +:+ orapw_file))
               (Local ("/tmp/" +:+ orapw_file)) zone project;;
    gcloud_scp (Local ("/tmp/" +:+ orapw_file))
               (Remote standby_instance ("/tmp/" +:+ orapw_file)) zone project;;
    gcloud_ssh standby_instance zone project
      (MoveIntoPlace ("/tmp/" +:+ orapw_file) orapw_path);;
    gcloud_ssh primary_instance zone project (RmF ("/tmp/" +:+ orapw_file));;
    new_standby_md5 ← gcloud_ssh_capture standby_instance zone project (Md5sum orapw_path);
    (if String.eqb primary_md5 new_standby_md5 then mret tt
     else Raise (RuntimeError "Password file synchronization failed"));;
    gcloud_ssh standby_instance zone project (RestartStandbyMount db_name);;
    mret tt.

(** What [gcloud_ssh_capture] returned at position [i] of a trace, when the
    call there succeeded. *)
Definition captured (tr : list event) (i : nat) : option string :=
  match nth_error tr i with
  | Some (Ran c r) =>
      if capture_output c && (returncode r =? 0)%Z then Some (strip (stdout r)) else None
  | _ => None
  end.

(** Positions, in the trace of the synchronisation stage, of the primary's
    fingerprint, the standby's, and the standby's after the copy. *)
Definition primary_md5_at : nat := 1.
Definition standby_md5_at : nat := 2.
Definition new_standby_md5_at : nat := 8.

End PasswordFile.

(** ** The two workflows *)

Module Workflow.
Import Py Names Gcloud PasswordFile.

(** [args.x or get_gcloud_config(key)]. *)
Definition given_or_config (given : option string) (key : string) : py string :=
  match given with
  | Some (String c s) => mret (String c s)
  | _ => get_gcloud_config key
  end.

(** [if not value: logger.error(...); sys.exit(1)]. *)
Definition exit_unless_set (value : string) : py unit :=
  match value with
  | EmptyString => Raise (SystemExit 1)
  | String _ _ => mret tt
  end.

(** [x < y] on rationals, as a boolean. *)
Definition Qlt_bool (x y : Q) : bool := negb (Qle_bool y x).

(** *** setup_oracle.py *)

Module SetupOracle.

(** [gcloud_ssh] of setup_oracle.py, which discards the result. *)
Definition gcloud_ssh (instance zone project : string) (command : remote_command)
  : py unit :=
  run_cmd (ComputeSsh instance zone project command) true false;; mret tt.

(** The body of the [while] loop of [wait_for_instance], unfolded at most
    [fuel] times. *)
Fixpoint wait_loop (fuel : nat) (instance zone project : string)
    (timeout start : Q) : py unit :=
  match fuel with
  | O => Spin
  | S fuel' =>
      TimeTime (fun now =>
        if Qlt_bool (now - start) timeout then
          result ← run_cmd (ComputeSsh instance zone project ProbeTrue) false true;
          if (returncode result =? 0)%Z then mret tt
          else TimeSleep 10 (wait_loop fuel' instance zone project timeout start)
        else Raise (TimeoutError instance timeout))
  end.

(** [wait_for_instance(instance, zone, project, timeout)]. *)
Definition wait_for_instance (fuel : nat) (instance zone project : string)
    (timeout : Q) : py unit :=
  TimeTime (fun start => wait_loop fuel instance zone project timeout start).

(** The default of the [timeout] parameter of [wait_for_instance]. *)
Definition default_timeout : Q := 300.

Definition delete_instance (instance zone project : string) : py unit :=
  run_cmd (InstancesDelete instance zone project) true false;; mret tt.

Definition create_instance (instance zone project cdb_diskgroup : string)
    (extra_diskgroups : list string) : py unit :=
  run_cmd (InstancesCreate instance zone project cdb_diskgroup extra_diskgroups)
          true false;;
  mret tt.

Definition configure_kernel (instance zone project : string) : py unit :=
  gcloud_ssh instance zone project ConfigureKernel;;
  run_cmd (InstancesReset instance zone project) true false;;
  mret tt.

Definition setup_prerequisites (instance zone project : string) : py unit :=
  gcloud_ssh instance zone project SetupPrerequisites.

Definition create_config_files (instance zone project cdb_diskgroup : string)
    (extra_diskgroups : list string) : py unit :=
  gcloud_ssh instance zone project (CreateConfigFiles cdb_diskgroup extra_diskgroups).

Definition install_oracle
    (instance zone project swlib_bucket cdb_diskgroup db_name : string) : py unit :=
  gcloud_ssh instance zone project
    (InstallOracle swlib_bucket cdb_diskgroup db_name instance).

Definition configure_oracle_sga (instance zone project : string) : py unit :=
  gcloud_ssh instance zone project ConfigureOracleSga.

Definition configure_asmfd (instance zone project cdb_diskgroup : string)
    (extra_diskgroups : list string) : py unit :=
  gcloud_ssh instance zone project (ConfigureAsmfd (cdb_diskgroup :: extra_diskgroups)).

Definition configure_asm_diskstring (instance zone project cdb_diskgroup : string)
    (extra_diskgroups : list string) : py unit :=
  match get_db_name instance with
  | inl e => Raise e
  | inr db_name =>
      gcloud_ssh instance zone project
        (ConfigureAsmDiskstring (cdb_diskgroup :: extra_diskgroups) db_name)
  end.

Definition validate_setup (instance zone project cdb_diskgroup : string)
    (extra_diskgroups : list string) (db_name : string) : py unit :=
  gcloud_ssh instance zone project
    (ValidateSetup (cdb_diskgroup :: extra_diskgroups) db_name).

(** [[dg.strip() for dg in s.split(",") if dg.strip()]]. *)
Definition parse_extra_diskgroups (s : string) : list string :=
  List.filter (fun dg => negb (String.eqb dg ""))
              (List.map strip (split "," s)).

(** The parsed command line. *)
Record arguments : Type := {
  instance : string;
  project : option string;
  zone : option string;
  swlib_bucket : string;
  extra_diskgroups : string;
  skip_create : bool;
  skip_kernel : bool;
  skip_install : bool;
  skip_asmfd : bool;
  delete : bool
}.

(** [main] of setup_oracle.py.  A ValueError from the two name helpers is
    caught and turned into exit status 1. *)
Definition main (fuel : nat) (args : arguments) : py unit :=
  match get_cdb_diskgroup_name (instance args), get_db_name (instance args) with
  | inr cdb_diskgroup, inr db_name =>
      let extra_diskgroups := parse_extra_diskgroups (extra_diskgroups args) in
      project ← given_or_config (project args) "project";
      zone ← given_or_config (zone args) "compute/zone";
      exit_unless_set project;;
      exit_unless_set zone;;
      if delete args then delete_instance (instance args) zone project
      else
        (if negb (skip_create args) then
           create_instance (instance args) zone project cdb_diskgroup extra_diskgroups;;
           wait_for_instance fuel (instance args) zone project default_timeout
         else mret tt);;
        (if negb (skip_kernel args) then
           configure_kernel (instance args) zone project;;
           TimeSleep 30
             (wait_for_instance fuel (instance args) zone project default_timeout)
         else mret tt);;
        (if negb (skip_install args) then
           setup_prerequisites (instance args) zone project;;
           create_config_files (instance args) zone project cdb_diskgroup extra_diskgroups;;
           install_oracle (instance args) zone project (swlib_bucket args)
             cdb_diskgroup db_name;;
           configure_oracle_sga (instance args) zone project
         else mret tt);;
        (if negb (skip_asmfd args) then
           configure_asmfd (instance args) zone project cdb_diskgroup extra_diskgroups;;
           configure_asm_diskstring (instance args) zone project cdb_diskgroup
             extra_diskgroups
         else mret tt);;
        validate_setup (instance args) zone project cdb_diskgroup extra_diskgroups db_name
  | _, _ => Raise (SystemExit 1)
  end.

End SetupOracle.

(** *** setup_dataguard.py *)

Module SetupDataguard.

Definition configure_primary_for_dataguard
    (instance zone project db_name db_unique_name standby_db_unique_name
     primary_ip standby_ip : string) : py unit :=
  gcloud_ssh instance zone project
    (ConfigurePrimaryForDataguard db_unique_name standby_db_unique_name);;
  mret tt.

Definition configure_bash_profiles (instance zone project : string) : py unit :=
  gcloud_ssh instance zone project ConfigureBashProfiles;; mret tt.

Definition configure_tns_entries
    (instance zone project db_name primary_db_unique_name standby_db_unique_name
     primary_ip standby_ip : string) : py unit :=
  gcloud_ssh instance zone project
    (ConfigureTnsEntries db_name primary_db_unique_name standby_db_unique_name
       primary_ip standby_ip);;
  mret tt.

Definition configure_static_listener
    (instance zone project db_name db_unique_name : string) : py unit :=
  gcloud_ssh instance zone project (ConfigureStaticListener db_name);; mret tt.

Definition remove_standby_database
    (instance zone project db_name diskgroup : string) : py unit :=
  gcloud_ssh instance zone project (RemoveStandbyDatabase db_name diskgroup);; mret tt.

Definition create_standby_pfile
    (instance zone project db_name db_unique_name primary_db_unique_name
     diskgroup : string) : py unit :=
  gcloud_ssh instance zone project
    (CreateStandbyPfile db_name db_unique_name primary_db_unique_name diskgroup);;
  mret tt.

Definition start_standby_nomount (instance zone project db_name : string) : py unit :=
  gcloud_ssh instance zone project (StartStandbyNomount db_name);; mret tt.

Definition duplicate_database
    (primary_instance standby_instance zone project db_name
     primary_db_unique_name standby_db_unique_name
     primary_diskgroup standby_diskgroup primary_ip standby_ip sys_password : string)
  : py unit :=
  gcloud_ssh standby_instance zone project
    (DuplicateDatabase db_name primary_db_unique_name standby_db_unique_name
       primary_diskgroup standby_diskgroup primary_ip standby_ip sys_password);;
  mret tt.

Definition start_managed_recovery (instance zone project db_name : string) : py unit :=
  gcloud_ssh instance zone project (StartManagedRecovery db_name);; mret tt.

Definition fix_standby_redo_logs
    (instance zone project db_name diskgroup : string) : py unit :=
  gcloud_ssh instance zone project (FixStandbyRedoLogs db_name diskgroup);; mret tt.

Definition enable_log_shipping
    (instance zone project standby_ip db_name standby_db_unique_name : string)
  : py unit :=
  gcloud_ssh instance zone project
    (EnableLogShipping standby_ip db_name standby_db_unique_name);;
  mret tt.

Definition register_standby_with_cluster
    (instance zone project db_name db_unique_name diskgroup : string) : py unit :=
  gcloud_ssh instance zone project (RegisterStandbyWithCluster db_name diskgroup);;
  mret tt.

Definition validate_dataguard
    (primary_instance standby_instance zone project db_name
     primary_db_unique_name standby_db_unique_name : string) : py unit :=
  gcloud_ssh primary_instance zone project ValidatePrimary;;
  gcloud_ssh standby_instance zone project ValidateStandby;;
  mret tt.

(** The parsed command line. *)
Record arguments : Type := {
  primary : string;
  standby : string;
  project : option string;
  zone : option string;
  skip_primary_config : bool;
  skip_duplication : bool;
  sys_password : string
}.

(** [main] of setup_dataguard.py. *)
Definition main (args : arguments) : py unit :=
  project ← given_or_config (project args) "project";
  zone ← given_or_config (zone args) "compute/zone";
  exit_unless_set project;;
  exit_unless_set zone;;
  match derive_names (primary args) (standby args) with
  | inl e => Raise e
  | inr n =>
      primary_ip ← get_instance_ip (primary args) zone project;
      standby_ip ← get_instance_ip (standby args) zone project;
      (if negb (skip_primary_config args) then
         configure_bash_profiles (primary args) zone project;;
         configure_bash_profiles (standby args) zone project;;
         configure_tns_entries (primary args) zone project (db_name n)
           (primary_db_unique_name n) (standby_db_unique_name n) primary_ip standby_ip;;
         configure_tns_entries (standby args) zone project (db_name n)
           (primary_db_unique_name n) (standby_db_unique_name n) primary_ip standby_ip;;
         configure_static_listener (primary args) zone project (db_name n)
           (primary_db_unique_name n);;
         configure_static_listener (standby args) zone project (db_name n)
           (standby_db_unique_name n);;
         configure_primary_for_dataguard (primary args) zone project (db_name n)
           (primary_db_unique_name n) (standby_db_unique_name n) primary_ip standby_ip;;
         setup_password_file (primary args) (standby args) zone project (db_name n)
           (sys_password args)
       else mret tt);;
      (if negb (skip_duplication args) then
         let standby_old_db := "ORA" +:+ standby_num n in
         remove_standby_database (standby args) zone project standby_old_db
           (standby_diskgroup n);;
         create_standby_pfile (standby args) zone project (db_name n)
           (standby_db_unique_name n) (primary_db_unique_name n) (standby_diskgroup n);;
         start_standby_nomount (standby args) zone project (db_name n);;
         duplicate_database (primary args) (standby args) zone project (db_name n)
           (primary_db_unique_name n) (standby_db_unique_name n)
           (primary_diskgroup n) (standby_diskgroup n)
           primary_ip standby_ip (sys_password args);;
         sync_password_file_after_duplication (primary args) (standby args) zone project
           (db_name n);;
         fix_standby_redo_logs (standby args) zone project (db_name n)
           (standby_diskgroup n);;
         register_standby_with_cluster (standby args) zone project (db_name n)
           (standby_db_unique_name n) (standby_diskgroup n)
       else mret tt);;
      start_managed_recovery (standby args) zone project (db_name n);;
      enable_log_shipping (primary args) zone project standby_ip (db_name n)
        (standby_db_unique_name n);;
      validate_dataguard (primary args) (standby args) zone project (db_name n)
        (primary_db_unique_name n) (standby_db_unique_name n)
  end.

End SetupDataguard.

End Workflow.

(** ** Waiting for an instance: what its traces look like *)

Module Waiting.
Import Py Gcloud Workflow Workflow.SetupOracle.

(** The probe of [wait_for_instance]: [gcloud compute ssh ... --command true],
    unchecked, output captured. *)
Definition probe_call (instance zone project : string) : subprocess_call :=
  call_of (ComputeSsh instance zone project ProbeTrue) false true.

(** The traces the loop can leave, with how it ended: out of unfoldings;
    past the deadline at the reading [t]; a probe that succeeded; or a probe
    that failed, ten seconds of sleep, and the loop again. *)
Inductive polling (probe : subprocess_call) (instance : string) (timeout start : Q)
  : list event -> outcome unit -> Prop :=
  | polling_unfinished :
      polling probe instance timeout start [] Unfinished
  | polling_deadline (t : Q) :
      Qlt_bool (t - start) timeout = false ->
      polling probe instance timeout start
        [Clock t] (Raised (TimeoutError instance timeout))
  | polling_ready (t : Q) (r : completed_process) :
      Qlt_bool (t - start) timeout = true ->
      returncode r = 0%Z ->
      polling probe instance timeout start [Clock t; Ran probe r] (Returned tt)
  | polling_retry (t : Q) (r : completed_process) (tr : list event) (o : outcome unit) :
      Qlt_bool (t - start) timeout = true ->
      returncode r <> 0%Z ->
      polling probe instance timeout start tr o ->
      polling probe instance timeout start
        (Clock t :: Ran probe r :: Slept 10 :: tr) o.

(** What is assumed of a clock: [now_of] is the time in a state; a reading
    lies between the time before and the time after it, a call does not turn
    the clock back, and a sleep lasts at least as long as asked. *)
Record steady_clock {St : Type} (E : env St) (now_of : St -> Q) : Prop := {
  reading : forall s s' t, on_time E s = (s', t) -> (now_of s <= t)%Q /\ (t <= now_of s')%Q;
  calling : forall s s' c r, on_run E s c = (s', r) -> (now_of s <= now_of s')%Q;
  sleeping : forall s d, (now_of s + d <= now_of (on_sleep E s d))%Q
}.

(** No [subprocess.run] call of the program carries a timeout. *)
Inductive untimed {A : Type} : py A -> Prop :=
  | untimed_return (a : A) : untimed (Return a)
  | untimed_raise (e : exn) : untimed (Raise e)
  | untimed_spin : untimed Spin
  | untimed_run (c : subprocess_call) (k : completed_process -> py A) :
      timeout c = None -> (forall r, untimed (k r)) -> untimed (SubprocessRun c k)
  | untimed_time (k : Q -> py A) :
      (forall t, untimed (k t)) -> untimed (TimeTime k)
  | untimed_sleep (d : Q) (k : py A) :
      untimed k -> untimed (TimeSleep d k).

Definition event_untimed (ev : event) : Prop :=
  match ev with
  | Ran c _ => timeout c = None
  | _ => True
  end.

End Waiting.

(** ** A model of the hosts the password-file stages act on *)

Module World.
Import Py Gcloud.

Record file : Type := {
  content : string;
  owner : string;
  mode : string
}.

(** An instance: its files by path, the ORACLE_HOME of its oracle user, and
    how many times its database has been restarted. *)
Record host : Type := {
  fs : gmap string file;
  oracle_home : string;
  restarts : nat
}.

(** The instances by name, the files of the control host, and the clock. *)
Record world : Type := {
  hosts : gmap string host;
  local_fs : gmap string file;
  clock : Q
}.

Definition nl : string := String (ascii_of_nat 10) EmptyString.

Definition ok (out : string) : completed_process :=
  {| returncode := 0; stdout := out |}.

Definition failed (code : Z) : completed_process :=
  {| returncode := code; stdout := "" |}.

Definition set_fs (h : host) (m : gmap string file) : host :=
  {| fs := m; oracle_home := oracle_home h; restarts := restarts h |}.

Definition restarted (h : host) : host :=
  {| fs := fs h; oracle_home := oracle_home h; restarts := S (restarts h) |}.

(** [sudo chown o path] and [sudo chmod m path]: nothing happens to a path
    that does not exist. *)
Definition chown (o path : string) (m : gmap string file) : gmap string file :=
  match m !! path with
  | Some f => <[path := {| content := content f; owner := o; mode := mode f |}]> m
  | None => m
  end.

Definition chmod (md path : string) (m : gmap string file) : gmap string file :=
  match m !! path with
  | Some f => <[path := {| content := content f; owner := owner f; mode := md |}]> m
  | None => m
  end.

(** [sudo cp src dst]. *)
Definition cp (src dst : string) (m : gmap string file) : gmap string file :=
  match m !! src with
  | Some f => <[dst := {| content := content f; owner := "root"; mode := mode f |}]> m
  | None => m
  end.

(** [sudo mv src dst]. *)
Definition mv (src dst : string) (m : gmap string file) : gmap string file :=
  match m !! src with
  | Some f => <[dst := f]> (delete src m)
  | None => m
  end.

Section Semantics.

(** The digest [md5sum] prints for a content, what the transfer surface
    delivers for a content it is given (the identity for an exact copy), and
    the image [orapwd] writes for a password. *)
Variables md5 transfer orapwd : string -> string.

(** What [sudo md5sum path | awk '{print $1}'] prints: the digest and a
    newline, or nothing when the file is missing; the pipeline's status is
    awk's. *)
Definition md5sum_output (h : host) (path : string) : string :=
  match fs h !! path with
  | Some f => md5 (content f) +:+ nl
  | None => ""
  end.

(** The effect of a command text on the instance that runs it.  The texts
    of the password-file protocol are followed line by line; the others
    leave the files alone and succeed. *)
Definition exec_remote (h : host) (command : remote_command)
  : host * completed_process :=
  match command with
  | EchoOracleHome => (h, ok (oracle_home h +:+ nl))
  | Md5sum path => (h, ok (md5sum_output h path))
  | CopyForScp orapw_path tmp_path =>
      match fs h !! orapw_path with
      | Some _ => (set_fs h (chmod "644" tmp_path (cp orapw_path tmp_path (fs h))), ok "")
      | None => (h, failed 1)
      end
  | MoveIntoPlace tmp_path orapw_path =>
      let m := chown "oracle:oinstall" orapw_path (mv tmp_path orapw_path (fs h)) in
      match m !! orapw_path with
      | Some _ => (set_fs h (chmod "640" orapw_path m), ok "")
      | None => (set_fs h m, failed 1)
      end
  | RmF path => (set_fs h (delete path (fs h)), ok "")
  | RestartStandbyMount _ => (restarted h, ok "")
  | RestartDatabase _ => (restarted h, ok "")
  | CreatePasswordFile db_name sys_password =>
      let orapw := oracle_home h +:+ "/dbs/orapw" +:+ db_name in
      let tmp := "/tmp/orapw" +:+ db_name in
      let m := <[orapw := {| content := orapwd sys_password;
                             owner := "oracle:oinstall"; mode := "640" |}]> (fs h) in
      (set_fs h (chmod "644" tmp (cp orapw tmp m)), ok "")
  | InstallPasswordFile db_name =>
      let orapw := oracle_home h +:+ "/dbs/orapw" +:+ db_name in
      let tmp := "/tmp/orapw" +:+ db_name in
      (set_fs h (chmod "640" orapw (chown "oracle:oinstall" orapw (mv tmp orapw (fs h)))),
       ok "")
  | _ => (h, ok "")
  end.

Definition set_host (w : world) (instance : string) (h : host) : world :=
  {| hosts := <[instance := h]> (hosts w); local_fs := local_fs w; clock := clock w |}.

Definition set_local (w : world) (m : gmap string file) : world :=
  {| hosts := hosts w; local_fs := m; clock := clock w |}.

Definition arrived (f : file) : file :=
  {| content := transfer (content f); owner := "user"; mode := "644" |}.

(** [gcloud compute scp src dst]: download, or upload; the scripts use no
    other combination. *)
Definition exec_scp (w : world) (src dst : location) : world * completed_process :=
  match src, dst with
  | Remote instance path, Local lpath =>
      match hosts w !! instance with
      | Some h =>
          match fs h !! path with
          | Some f => (set_local w (<[lpath := arrived f]> (local_fs w)), ok "")
          | None => (w, failed 1)
          end
      | None => (w, failed 1)
      end
  | Local lpath, Remote instance path =>
      match local_fs w !! lpath, hosts w !! instance with
      | Some f, Some h => (set_host w instance (set_fs h (<[path := arrived f]> (fs h))), ok "")
      | _, _ => (w, failed 1)
      end
  | _, _ => (w, failed 1)
  end.

Definition world_run (w : world) (c : subprocess_call) : world * completed_process :=
  match cmd c with
  | ComputeSsh instance _ _ command =>
      match hosts w !! instance with
      | Some h => let '(h', r) := exec_remote h command in (set_host w instance h', r)
      | None => (w, failed 255)
      end
  | ComputeScp _ _ src dst => exec_scp w src dst
  | _ => (w, ok "")
  end.

Definition world_env : env world := {|
  on_run := world_run;
  on_time := fun w => (w, clock w);
  on_sleep := fun w d =>
    {| hosts := hosts w; local_fs := local_fs w; clock := (clock w + d)%Q |}
|}.

(** The fingerprint [gcloud_ssh_capture] would return for [path] on
    [instance] in a given world. *)
Definition fingerprint (w : world) (instance path : string) : option string :=
  match hosts w !! instance with
  | Some h => Some (strip (md5sum_output h path))
  | None => None
  end.

End Semantics.

(** Where the stage looks for the password file, given the primary. *)
Definition orapw_path_of (hp : host) (db_name : string) : string :=
  strip (oracle_home hp +:+ nl) +:+ "/dbs/" +:+ "orapw" +:+ db_name.

End World.

(** ** An environment that follows a script *)

Module Scripted.
Import Py Gcloud Waiting.

(** The time, and for each coming call how long it takes and how it exits. *)
Record script : Type := {
  now : Q;
  answers : list (Q * Z)
}.

Definition scripted_env : env script := {|
  on_run := fun s _ =>
    match answers s with
    | (d, code) :: rest =>
        ({| now := now s + Qabs d; answers := rest |},
         {| returncode := code; stdout := "" |})
    | [] => (s, {| returncode := 255; stdout := "" |})
    end;
  on_time := fun s => (s, now s);
  on_sleep := fun s d => {| now := now s + Qabs d; answers := answers s |}
|}.

End Scripted.

(** ** The redo-log repair: which member paths are taken for invalid *)

Module RedoLogPaths.

(** SQL [s LIKE pattern], no ESCAPE clause: a percent sign matches any run
    of characters, an underscore any one character. *)
Fixpoint sql_like (pattern s : string) : bool :=
  match pattern with
  | EmptyString => match s with EmptyString => true | String _ _ => false end
  | String c pattern' =>
      if Ascii.eqb c "%" then
        (fix any (t : string) : bool :=
           sql_like pattern' t
           || match t with
              | String _ t' => any t'
              | EmptyString => false
              end) s
      else
        match s with
        | String d s' =>
            (Ascii.eqb c "_" || Ascii.eqb c d) && sql_like pattern' s'
        | EmptyString => false
        end
  end.

(** The condition on [f.MEMBER] in the cursor over the non-current groups
    (lines 680-684).  An empty string is NULL to Oracle: every comparison on
    it is unknown and the row is not selected. *)
Definition member_invalid (diskgroup member : string) : bool :=
  match member with
  | EmptyString => false
  | _ =>
      negb (sql_like "+%/%" member)
      || sql_like ("+" +:+ diskgroup) member
      || Nat.ltb (String.length member) 10
  end.

(** The condition on [f.MEMBER] in the query for the current group
    (lines 720-723). *)
Definition member_invalid_current (member : string) : bool :=
  match member with
  | EmptyString => false
  | _ =>
      negb (sql_like "+%/%" member)
      || Nat.ltb (String.length member) 10
  end.

(** No character of the name means anything to LIKE, and none is the path
    separator. *)
Fixpoint plain_name (s : string) : bool :=
  match s with
  | EmptyString => true
  | String c s' =>
      negb (Ascii.eqb c "%") && negb (Ascii.eqb c "_") && negb (Ascii.eqb c "/")
      && plain_name s'
  end.

(** The three heuristics in the words of the specification. *)
Definition lacks_separator (path : string) : Prop :=
  ~ exists pool rest, path = "+" +:+ pool +:+ "/" +:+ rest.

Definition bare_pool_token (pool_name path : string) : Prop :=
  path = "+" +:+ pool_name.

Definition implausibly_short (path : string) : Prop :=
  String.length path < 10.

Definition flagged_by_spec (pool_name path : string) : Prop :=
  lacks_separator path \/ bare_pool_token pool_name path \/ implausibly_short path.

End RedoLogPaths.

(** ** The redo-log repair: recreating the standby log groups *)

Module StandbyLogs.

(** A row of V$LOG or of V$STANDBY_LOG, with the two columns the block
    reads.  An Oracle NUMBER is modelled as a rational. *)
Record log_row : Type := {
  GROUP_no : N;
  BYTES : Q
}.

(** The two views, as the block sees them on the standby. *)
Record database : Type := {
  V_LOG : list log_row;
  V_STANDBY_LOG : list log_row
}.

(** The statements the block builds by concatenation.  A NULL group number
    leaves a gap in the text, which is then no statement at all. *)
Inductive statement : Type :=
  | DropStandbyLogfileGroup (group : N)
  | AddStandbyLogfileGroup (group : option N) (diskgroup : string) (size_mb : Q).

Definition has_group (g : N) (rows : list log_row) : bool :=
  existsb (fun r => N.eqb (GROUP_no r) g) rows.

(** [EXECUTE IMMEDIATE]: the new tables, or [None] when the database raises.
    Dropping removes the group, and raises if there is no such standby
    group; adding raises on a malformed statement or a group number in use,
    and otherwise creates the group with the size asked for. *)
Definition execute_immediate (db : database) (st : statement) : option database :=
  match st with
  | DropStandbyLogfileGroup g =>
      if has_group g (V_STANDBY_LOG db)
      then Some {| V_LOG := V_LOG db;
                   V_STANDBY_LOG :=
                     List.filter (fun r => negb (N.eqb (GROUP_no r) g)) (V_STANDBY_LOG db) |}
      else None
  | AddStandbyLogfileGroup None _ _ => None
  | AddStandbyLogfileGroup (Some g) _ size_mb =>
      if has_group g (V_LOG db) || has_group g (V_STANDBY_LOG db)
      then None
      else Some {| V_LOG := V_LOG db;
                   V_STANDBY_LOG :=
                     V_STANDBY_LOG db
                     ++ [ {| GROUP_no := g; BYTES := (size_mb * 1024 * 1024)%Q |} ] |}
  end.

(** [BEGIN EXECUTE IMMEDIATE ...; EXCEPTION WHEN OTHERS THEN ...; END]: an
    error is reported and the loop goes on. *)
Definition attempt (db : database) (st : statement) : database :=
  match execute_immediate db st with
  | Some db' => db'
  | None => db
  end.

(** [MAX(GROUP#)] and [MAX(BYTES)]: NULL over no rows. *)
Fixpoint max_group (rows : list log_row) : option N :=
  match rows with
  | [] => None
  | r :: rest =>
      match max_group rest with
      | None => Some (GROUP_no r)
      | Some g => Some (N.max (GROUP_no r) g)
      end
  end.

Fixpoint max_bytes (rows : list log_row) : option Q :=
  match rows with
  | [] => None
  | r :: rest =>
      match max_bytes rest with
      | None => Some (BYTES r)
      | Some b => Some (Qmax (BYTES r) b)
      end
  end.

(** [IF v_log_size IS NULL OR v_log_size = 0 THEN v_log_size := 100]. *)
Definition log_size_or_default (v_log_size : option Q) : Q :=
  match v_log_size with
  | None => 100%Q
  | Some x => if Qeq_bool x 0 then 100%Q else x
  end.

(** [FOR i IN lo..hi]. *)
Definition for_range (lo hi : nat) : list N :=
  List.map N.of_nat (seq lo (S hi - lo)).

(** The third PL/SQL block of [fix_standby_redo_logs] (lines 743-781). *)
Definition recreate_standby_logs (diskgroup : string) (db : database) : database :=
  let v_online_count := length (V_LOG db) in
  let v_max_group := max_group (V_LOG db) in
  let v_log_size :=
    log_size_or_default (option_map (fun b => b / 1024 / 1024)%Q (max_bytes (V_LOG db))) in
  let db1 :=
    fold_left
      (fun d g => attempt d (DropStandbyLogfileGroup g))
      (merge_sort N.le (List.map GROUP_no (V_STANDBY_LOG db)))
      db in
  fold_left
    (fun d i =>
       attempt d (AddStandbyLogfileGroup
                    (option_map (fun m => (m + i)%N) v_max_group)
                    diskgroup v_log_size))
    (for_range 1 (v_online_count + 1))
    db1.

(** The row an accepted ADD creates. *)
Definition new_row (m : N) (size_mb : Q) (i : N) : log_row :=
  {| GROUP_no := m + i; BYTES := (size_mb * 1024 * 1024)%Q |}.

End StandbyLogs.

(** ** Concrete hosts, tables and scripts used to exercise the statements *)

Module Demo.
Import Py Gcloud World StandbyLogs Scripted.

Definition orapw (c : string) : file :=
  {| content := c; owner := "oracle:oinstall"; mode := "640" |}.

Definition instance_with (c : string) : host :=
  {| fs := {[ "/u01/app/oracle/product/dbhome/dbs/orapwORA1" := orapw c ]};
     oracle_home := "/u01/app/oracle/product/dbhome";
     restarts := 0 |}.

(** After a duplication: the standby's password file differs. *)
Definition world_after_duplication : world :=
  {| hosts := {[ "ora-1" := instance_with "primary-image";
                 "ora-2" := instance_with "rman-image" ]};
     local_fs := ∅;
     clock := 0 |}.

(** Both password files already agree. *)
Definition world_in_sync : world :=
  {| hosts := {[ "ora-1" := instance_with "primary-image";
                 "ora-2" := instance_with "primary-image" ]};
     local_fs := ∅;
     clock := 0 |}.

(** A digest that tells all contents apart, an exact transfer, and a
    transfer that damages what it carries. *)
Definition digest (c : string) : string := c.
Definition exact (c : string) : string := c.
Definition damaged (c : string) : string := "damaged".

(** A size given in megabytes, in bytes. *)
Definition mb (n : Z) : Q := inject_Z (n * 1048576).

(** Three online groups and five standby groups (N+2) found beforehand. *)
Definition demo_database : database :=
  {| V_LOG := [ {| GROUP_no := 1; BYTES := mb 200 |};
                {| GROUP_no := 2; BYTES := mb 200 |};
                {| GROUP_no := 3; BYTES := mb 100 |} ];
     V_STANDBY_LOG := [ {| GROUP_no := 7; BYTES := mb 50 |};
                        {| GROUP_no := 4; BYTES := mb 50 |};
                        {| GROUP_no := 5; BYTES := mb 50 |};
                        {| GROUP_no := 11; BYTES := mb 50 |};
                        {| GROUP_no := 12; BYTES := mb 50 |} ] |}.

(** Two probes fail, the third succeeds; the deadline is thirty seconds. *)
Definition demo_script : script :=
  {| now := 1000; answers := [ (1%Q, 255%Z); (2%Q, 255%Z); (1%Q, 0%Z) ] |}.

End Demo.

(** ** Predicates on text, used to state what the name helpers accept *)

Module Text.
Import Py.

(** [c in s]. *)
Fixpoint contains (c : ascii) (s : string) : bool :=
  match s with
  | EmptyString => false
  | String d s' => Ascii.eqb d c || contains c s'
  end.

(** Every character satisfies [f]. *)
Fixpoint only (f : ascii -> bool) (s : string) : bool :=
  match s with
  | EmptyString => true
  | String c s' => f c && only f s'
  end.

Definition starts_with_digit (s : string) : bool :=
  match s with
  | String c _ => isdigit c
  | EmptyString => false
  end.

(** Nothing, or something that begins with a hyphen. *)
Definition ends_or_hyphen (s : string) : bool :=
  match s with
  | EmptyString => true
  | String c _ => Ascii.eqb c "-"
  end.

End Text.

(** ** The blocks of the two workflows, and what a program may do *)

Module Stages.
Import Py Gcloud Workflow.

(** Every [subprocess.run] call the program can make satisfies [P]; it reads
    the clock or sleeps only if [T] holds. *)
Inductive confined {A : Type} (P : subprocess_call -> Prop) (T : Prop) : py A -> Prop :=
  | confined_return (a : A) : confined P T (Return a)
  | confined_raise (e : exn) : confined P T (Raise e)
  | confined_spin : confined P T Spin
  | confined_run (c : subprocess_call) (k : completed_process -> py A) :
      P c -> (forall r, confined P T (k r)) -> confined P T (SubprocessRun c k)
  | confined_time (k : Q -> py A) :
      T -> (forall t, confined P T (k t)) -> confined P T (TimeTime k)
  | confined_sleep (d : Q) (k : py A) :
      T -> confined P T k -> confined P T (TimeSleep d k).

Definition event_confined (P : subprocess_call -> Prop) (T : Prop) (ev : event) : Prop :=
  match ev with
  | Ran c _ => P c
  | Clock _ | Slept _ => T
  end.


(** [gcloud config get-value ...]: a query of the local configuration. *)
Definition is_config_query (ev : event) : bool :=
  match ev with
  | Ran c _ => match cmd c with ConfigGetValue _ => true | _ => false end
  | _ => false
  end.

(** The [subprocess.run] calls of a trace. *)
Definition is_call (ev : event) : bool :=
  match ev with
  | Ran _ _ => true
  | _ => false
  end.

Definition calls (tr : list event) : nat := length (List.filter is_call tr).

(** *** setup_oracle.py *)

Module Oracle.
Import SetupOracle.

(** The blocks of [main]: resolving project and zone, the delete mode, the
    four blocks behind the skip flags, waiting for the instance (part of the
    create and of the kernel block), and the validation; [Foreign] is
    anything [main] has no business with. *)
Inductive stage : Type :=
  | Resolve | Delete | Create | Kernel | Waiting | Install | Asmfd | Validate | Foreign.

Definition stage_of (g : gcloud) : stage :=
  match g with
  | ConfigGetValue _ => Resolve
  | InstancesDelete _ _ _ => Delete
  | InstancesCreate _ _ _ _ _ => Create
  | InstancesReset _ _ _ => Kernel
  | ComputeSsh _ _ _ command =>
      match command with
      | ProbeTrue => Waiting
      | ConfigureKernel => Kernel
      | SetupPrerequisites | CreateConfigFiles _ _ | InstallOracle _ _ _ _
      | ConfigureOracleSga => Install
      | ConfigureAsmfd _ | ConfigureAsmDiskstring _ _ => Asmfd
      | ValidateSetup _ _ => Validate
      | _ => Foreign
      end
  | _ => Foreign
  end.

(** Which blocks the command line lets [main] enter. *)
Definition enabled (args : arguments) (st : stage) : bool :=
  match st with
  | Resolve => true
  | Delete => delete args
  | Create => negb (delete args) && negb (skip_create args)
  | Kernel => negb (delete args) && negb (skip_kernel args)
  | Waiting => negb (delete args) && (negb (skip_create args) || negb (skip_kernel args))
  | Install => negb (delete args) && negb (skip_install args)
  | Asmfd => negb (delete args) && negb (skip_asmfd args)
  | Validate => negb (delete args)
  | Foreign => false
  end.

Definition event_enabled (args : arguments) (ev : event) : bool :=
  match ev with
  | Ran c _ => enabled args (stage_of (cmd c))
  | Clock _ | Slept _ => enabled args Waiting
  end.

End Oracle.

(** *** setup_dataguard.py *)

Module Dataguard.
Import SetupDataguard.

(** The blocks of [main]: resolving project, zone and the two addresses; the
    primary configuration; the duplication; the file transfer steps the two
    password-file stages share; and the closing stages that always run. *)
Inductive stage : Type :=
  | Resolve | PrimaryConfig | Duplication | Transfer | Closing | Foreign.

Definition stage_of (g : gcloud) : stage :=
  match g with
  | ConfigGetValue _ | InstancesDescribe _ _ _ => Resolve
  | ComputeScp _ _ _ _ => Transfer
  | ComputeSsh _ _ _ command =>
      match command with
      | ConfigureBashProfiles | ConfigureTnsEntries _ _ _ _ _
      | ConfigureStaticListener _ | ConfigurePrimaryForDataguard _ _
      | CreatePasswordFile _ _ | InstallPasswordFile _ | RestartDatabase _ => PrimaryConfig
      | RemoveStandbyDatabase _ _ | CreateStandbyPfile _ _ _ _ | StartStandbyNomount _
      | DuplicateDatabase _ _ _ _ _ _ _ _ | EchoOracleHome | Md5sum _ | CopyForScp _ _
      | MoveIntoPlace _ _ | RestartStandbyMount _ | FixStandbyRedoLogs _ _
      | RegisterStandbyWithCluster _ _ => Duplication
      | RmF _ => Transfer
      | StartManagedRecovery _ | EnableLogShipping _ _ _ | ValidatePrimary
      | ValidateStandby => Closing
      | _ => Foreign
      end
  | _ => Foreign
  end.

Definition enabled (args : arguments) (st : stage) : bool :=
  match st with
  | Resolve | Closing => true
  | PrimaryConfig => negb (skip_primary_config args)
  | Duplication => negb (skip_duplication args)
  | Transfer => negb (skip_primary_config args) || negb (skip_duplication args)
  | Foreign => false
  end.

Definition event_enabled (args : arguments) (ev : event) : bool :=
  match ev with
  | Ran c _ => enabled args (stage_of (cmd c))
  | Clock _ | Slept _ => false
  end.

End Dataguard.

End Stages.

(** ** Hosts that keep their ORACLE_HOME *)

Module Hosts.
Import World.

(** Every instance of [w] is still there in [w'], with the ORACLE_HOME it had. *)
Definition same_homes (w w' : world) : Prop :=
  forall i h, hosts w !! i = Some h ->
    exists h', hosts w' !! i = Some h' /\ oracle_home h' = oracle_home h.

End Hosts.

(** ** The redo-log repair: the online log groups *)

Module OnlineLogs.
Import RedoLogPaths StandbyLogs.

(** A row of V$LOG with the columns the first two blocks read: GROUP# and
    BYTES as before, and STATUS, where an empty text stands for NULL. *)
Record v_log : Type := {
  numbers : log_row;
  STATUS : string
}.

(** A row of V$LOGFILE. *)
Record v_logfile : Type := {
  LOGFILE_GROUP_no : N;
  MEMBER : string
}.

(** The statements the two blocks build by concatenation. *)
Inductive ddl : Type :=
  | ClearLogfileGroup (group : N)
  | DropLogfileGroup (group : N)
  | AddLogfileGroup (group : N) (diskgroup : string) (size_mb : Q).

(** The database as the blocks meet it: the two views, and what
    [EXECUTE IMMEDIATE] does with a statement, [None] when it raises. *)
Record server (Db : Type) : Type := {
  logs : Db -> list v_log;
  logfiles : Db -> list v_logfile;
  execute : Db -> ddl -> option Db
}.
Arguments logs {Db} s d.
Arguments logfiles {Db} s d.
Arguments execute {Db} s d st.

(** [SELECT MAX(BYTES)/1024/1024 INTO v_log_size FROM V$LOG], then the
    default of 100 when that is NULL or zero. *)
Definition v_log_size (rows : list v_log) : Q :=
  log_size_or_default
    (option_map (fun b => b / 1024 / 1024)%Q (max_bytes (List.map numbers rows))).

(** [FROM V$LOG l, V$LOGFILE f WHERE l.GROUP# = f.GROUP#]. *)
Definition joined (ls : list v_log) (fs : list v_logfile) : list (v_log * v_logfile) :=
  flat_map
    (fun l => List.map (pair l)
                (List.filter (fun f => N.eqb (GROUP_no (numbers l)) (LOGFILE_GROUP_no f)) fs))
    ls.

(** [l.STATUS != 'CURRENT']: unknown, hence not selected, on NULL. *)
Definition not_current (status : string) : bool :=
  match status with
  | EmptyString => false
  | _ => negb (String.eqb status "CURRENT")
  end.

(** A row of the cursor: GROUP#, STATUS, MEMBER. *)
Definition cursor_row : Type := N * string * string.

Definition row_group (rec : cursor_row) : N := rec.1.1.

Definition by_group (a b : cursor_row) : Prop := (row_group a <= row_group b)%N.

#[export] Instance by_group_dec (a b : cursor_row) : Decision (by_group a b) :=
  N.le_dec (row_group a) (row_group b).

(** The cursor of the first block (lines 676-687): SELECT DISTINCT over the
    join, restricted to invalid members of groups that are not current,
    ordered by group number. *)
Definition invalid_noncurrent_rows (diskgroup : string)
    (ls : list v_log) (fs : list v_logfile) : list cursor_row :=
  merge_sort by_group
    (remove_dups
       (List.map (fun lf => (GROUP_no (numbers lf.1), STATUS lf.1, MEMBER lf.2))
          (List.filter
             (fun lf => member_invalid diskgroup (MEMBER lf.2) && not_current (STATUS lf.1))
             (joined ls fs)))).

(** What a block has done so far: the database, [v_invalid_count], and the
    statements executed, each with whether it went through. *)
Record progress (Db : Type) : Type := {
  db_now : Db;
  v_invalid_count : N;
  issued : list (ddl * bool)
}.
Arguments db_now {Db} p.
Arguments v_invalid_count {Db} p.
Arguments issued {Db} p.

Section Blocks.
Context {Db : Type} (S : server Db).

(** The body of the loop (lines 688-696): DROP, then ADD, then count; an
    exception from either statement is reported and ends the iteration. *)
Definition fix_group (diskgroup : string) (size_mb : Q)
    (st : progress Db) (rec : cursor_row) : progress Db :=
  let g := row_group rec in
  match execute S (db_now st) (DropLogfileGroup g) with
  | None =>
      {| db_now := db_now st; v_invalid_count := v_invalid_count st;
         issued := issued st ++ [ (DropLogfileGroup g, false) ] |}
  | Some d1 =>
      match execute S d1 (AddLogfileGroup g diskgroup size_mb) with
      | None =>
          {| db_now := d1; v_invalid_count := v_invalid_count st;
             issued := issued st ++ [ (DropLogfileGroup g, true);
                                      (AddLogfileGroup g diskgroup size_mb, false) ] |}
      | Some d2 =>
          {| db_now := d2; v_invalid_count := v_invalid_count st + 1;
             issued := issued st ++ [ (DropLogfileGroup g, true);
                                      (AddLogfileGroup g diskgroup size_mb, true) ] |}
      end
  end.

(** The first PL/SQL block of [fix_standby_redo_logs] (lines 663-700). *)
Definition fix_noncurrent_groups (diskgroup : string) (d : Db) : progress Db :=
  let size_mb := v_log_size (logs S d) in
  fold_left (fix_group diskgroup size_mb)
            (invalid_noncurrent_rows diskgroup (logs S d) (logfiles S d))
            {| db_now := d; v_invalid_count := 0; issued := [] |}.

(** The query of the second block (lines 716-724): the first row of the
    join whose group is current and whose member is invalid, or
    NO_DATA_FOUND. *)
Definition invalid_current_row (ls : list v_log) (fs : list v_logfile)
  : option (N * string) :=
  match List.filter
          (fun lf => String.eqb (STATUS lf.1) "CURRENT" && member_invalid_current (MEMBER lf.2))
          (joined ls fs) with
  | [] => None
  | lf :: _ => Some (GROUP_no (numbers lf.1), MEMBER lf.2)
  end.

(** Statements executed one after the other until one raises. *)
Fixpoint execute_all (d : Db) (sts : list ddl) : Db * list (ddl * bool) :=
  match sts with
  | [] => (d, [])
  | st :: rest =>
      match execute S d st with
      | None => (d, [ (st, false) ])
      | Some d1 => let '(d2, done) := execute_all d1 rest in (d2, (st, true) :: done)
      end
  end.

(** The second PL/SQL block of [fix_standby_redo_logs] (lines 704-738). *)
Definition fix_current_group (diskgroup : string) (d : Db) : Db * list (ddl * bool) :=
  let size_mb := v_log_size (logs S d) in
  match invalid_current_row (logs S d) (logfiles S d) with
  | None => (d, [])
  | Some (v_current_group, _) =>
      execute_all d [ ClearLogfileGroup v_current_group;
                      DropLogfileGroup v_current_group;
                      AddLogfileGroup v_current_group diskgroup size_mb ]
  end.

End Blocks.


End OnlineLogs.

(** ** More inputs used to exercise the statements *)

Module Samples.
Import Py Gcloud Workflow World Scripted StandbyLogs OnlineLogs.

Definition dataguard_args : SetupDataguard.arguments :=
  {| SetupDataguard.primary := "ora-1";
     SetupDataguard.standby := "ora-2";
     SetupDataguard.project := Some "project";
     SetupDataguard.zone := Some "zone";
     SetupDataguard.skip_primary_config := false;
     SetupDataguard.skip_duplication := false;
     SetupDataguard.sys_password := "secret" |}.





(** A database that accepts every statement and shows the same rows
    throughout: group 1 is current, group 2 has two members, both of them
    bare disk group names. *)
Definition accepting_server : server unit :=
  {| logs := fun _ =>
       [ {| numbers := {| GROUP_no := 1; BYTES := Demo.mb 200 |}; STATUS := "CURRENT" |};
         {| numbers := {| GROUP_no := 2; BYTES := Demo.mb 200 |}; STATUS := "INACTIVE" |} ];
     logfiles := fun _ =>
       [ {| LOGFILE_GROUP_no := 2; MEMBER := "+DGORA2" |};
         {| LOGFILE_GROUP_no := 1; MEMBER := "+DGORA1" |};
         {| LOGFILE_GROUP_no := 2; MEMBER := "+DGORA1" |} ];
     execute := fun d _ => Some d |}.

End Samples.

(** * Part II: facts *)

(** ** Running programs: general facts *)

Module RunFacts.
Import Py Gcloud.

Section Generic.
Context {St : Type} (E : env St).

Lemma run_bind {A B : Type} (m : py A) (f : A -> py B) (s : St) :
  run E s (bind m f) =
  let '(s1, tr1, o1) := run E s m in
  match o1 with
  | Returned a => let '(s2, tr2, o2) := run E s1 (f a) in (s2, tr1 ++ tr2, o2)
  | Raised e => (s1, tr1, Raised e)
  | Unfinished => (s1, tr1, Unfinished)
  end.
Proof.
  revert s. induction m as [a|e| |c k IH|k IH|d k IH]; intros s; simpl.
  - destruct (run E s (f a)) as [[s2 tr2] o2]. reflexivity.
  - reflexivity.
  - reflexivity.
  - destruct (on_run E s c) as [s1 r]. rewrite IH.
    destruct (run E s1 (k r)) as [[s2 tr] o]. destruct o; try reflexivity.
    destruct (run E s2 (f a)) as [[s3 tr3] o3]. reflexivity.
  - destruct (on_time E s) as [s1 t]. rewrite IH.
    destruct (run E s1 (k t)) as [[s2 tr] o]. destruct o; try reflexivity.
    destruct (run E s2 (f a)) as [[s3 tr3] o3]. reflexivity.
  - rewrite IH.
    destruct (run E (on_sleep E s d) k) as [[s2 tr] o]. destruct o; try reflexivity.
    destruct (run E s2 (f a)) as [[s3 tr3] o3]. reflexivity.
Qed.

Lemma run_mbind {A B : Type} (m : py A) (f : A -> py B) (s : St) :
  run E s (m ≫= f) =
  let '(s1, tr1, o1) := run E s m in
  match o1 with
  | Returned a => let '(s2, tr2, o2) := run E s1 (f a) in (s2, tr1 ++ tr2, o2)
  | Raised e => (s1, tr1, Raised e)
  | Unfinished => (s1, tr1, Unfinished)
  end.
Proof. apply run_bind. Qed.

Lemma run_run_cmd (g : gcloud) (chk cap : bool) (s s1 : St) (r : completed_process) :
  on_run E s (call_of g chk cap) = (s1, r) ->
  run E s (run_cmd g chk cap) =
  (s1, [Ran (call_of g chk cap) r],
   if chk && negb (returncode r =? 0)%Z
   then Raised (CalledProcessError (returncode r)) else Returned r).
Proof.
  intros H. unfold run_cmd, subprocess_run, call_of in *. simpl. rewrite H. simpl.
  destruct (chk && negb (returncode r =? 0)%Z); reflexivity.
Qed.

Lemma run_gcloud_ssh_capture instance zone project command s s1 r :
  on_run E s (call_of (ComputeSsh instance zone project command) true true) = (s1, r) ->
  run E s (gcloud_ssh_capture instance zone project command) =
  (s1, [Ran (call_of (ComputeSsh instance zone project command) true true) r],
   if (returncode r =? 0)%Z then Returned (strip (stdout r))
   else Raised (CalledProcessError (returncode r))).
Proof.
  intros H. unfold gcloud_ssh_capture. rewrite run_mbind, (run_run_cmd _ _ _ _ _ _ H).
  simpl. destruct (returncode r =? 0)%Z; reflexivity.
Qed.

Lemma run_gcloud_ssh instance zone project command s s1 r :
  on_run E s (call_of (ComputeSsh instance zone project command) true false) = (s1, r) ->
  run E s (gcloud_ssh instance zone project command) =
  (s1, [Ran (call_of (ComputeSsh instance zone project command) true false) r],
   if (returncode r =? 0)%Z then Returned r
   else Raised (CalledProcessError (returncode r))).
Proof.
  intros H. unfold gcloud_ssh. rewrite (run_run_cmd _ _ _ _ _ _ H).
  simpl. destruct (returncode r =? 0)%Z; reflexivity.
Qed.

Lemma run_gcloud_scp src dst zone project s s1 r :
  on_run E s (call_of (ComputeScp zone project src dst) true false) = (s1, r) ->
  run E s (gcloud_scp src dst zone project) =
  (s1, [Ran (call_of (ComputeScp zone project src dst) true false) r],
   if (returncode r =? 0)%Z then Returned tt
   else Raised (CalledProcessError (returncode r))).
Proof.
  intros H. unfold gcloud_scp. rewrite run_mbind, (run_run_cmd _ _ _ _ _ _ H).
  simpl. destruct (returncode r =? 0)%Z; reflexivity.
Qed.

End Generic.

End RunFacts.

(** Unfolds the helpers of a stage down to its [subprocess.run] calls. *)
Ltac unfold_stage :=
  unfold PasswordFile.sync_password_file_after_duplication,
         PasswordFile.setup_password_file,
         Gcloud.gcloud_ssh_capture, Gcloud.gcloud_ssh, Gcloud.gcloud_scp,
         Gcloud.run_cmd, Gcloud.subprocess_run;
  cbn -[Py.strip String.eqb String.append Z.eqb].

(** Names the answer of the next call and splits on its exit status. *)
Ltac run_step :=
  match goal with
  | |- context [Gcloud.on_run ?E ?s ?c] =>
      let s1 := fresh "s" in
      let r := fresh "r" in
      let H := fresh "Hrun" in
      let Hrc := fresh "Hrc" in
      destruct (Gcloud.on_run E s c) as [s1 r] eqn:H;
      destruct (Gcloud.returncode r =? 0)%Z eqn:Hrc;
      cbn -[Py.strip String.eqb String.append Z.eqb]
  end.

(** A branch that ends before the verification: no restart, no recomputed
    fingerprint, and an error that is not the stage's own. *)
Ltac dead_branch :=
  intros [= <- <- <-]; cbn;
  repeat match goal with
         | H : (Gcloud.returncode _ =? 0)%Z = _ |- _ => progress rewrite H
         end;
  cbn; (split; [ | split ]); intros; congruence.

Module PasswordFileFacts.
Import Py Gcloud PasswordFile RunFacts.

Section AnyEnvironment.
Context {St : Type} (E : env St).

Lemma sync_short_circuit_run (p sb z pr db : string) (s s1 s2 s3 : St)
    (r1 r2 r3 : completed_process) :
  let capture i c := call_of (ComputeSsh i z pr c) true true in
  let orapw_path := strip (stdout r1) +:+ "/dbs/" +:+ "orapw" +:+ db in
  on_run E s (capture p EchoOracleHome) = (s1, r1) -> returncode r1 = 0%Z ->
  on_run E s1 (capture p (Md5sum orapw_path)) = (s2, r2) -> returncode r2 = 0%Z ->
  on_run E s2 (capture sb (Md5sum orapw_path)) = (s3, r3) -> returncode r3 = 0%Z ->
  strip (stdout r2) = strip (stdout r3) ->
  run E s (sync_password_file_after_duplication p sb z pr db) =
  (s3, [Ran (capture p EchoOracleHome) r1;
        Ran (capture p (Md5sum orapw_path)) r2;
        Ran (capture sb (Md5sum orapw_path)) r3], Returned tt).
Proof.
  intros capture orapw_path H1 Z1 H2 Z2 H3 Z3 Heq.
  subst capture orapw_path. unfold call_of in *.
  unfold_stage.
  rewrite H1, Z1. cbn -[strip String.eqb String.append].
  rewrite H2, Z2. cbn -[strip String.eqb String.append].
  rewrite H3, Z3. cbn -[strip String.eqb String.append].
  rewrite Heq, String.eqb_refl. reflexivity.
Qed.

(** Whatever the environment answers: a restart call appears in the trace
    only behind a recomputed fingerprint equal to the primary's, and a
    recomputed fingerprint that differs ends the stage with the error. *)
Lemma sync_run_inversion (p sb z pr db : string) (s s' : St)
    (tr : list event) (o : outcome unit) :
  run E s (sync_password_file_after_duplication p sb z pr db) = (s', tr, o) ->
  (List.filter is_restart tr <> [] ->
     exists f, captured tr primary_md5_at = Some f /\
               captured tr new_standby_md5_at = Some f) /\
  (forall f f', captured tr primary_md5_at = Some f ->
     captured tr new_standby_md5_at = Some f' -> f <> f' ->
     o = Raised (RuntimeError "Password file synchronization failed") /\
     List.filter is_restart tr = []) /\
  (forall m, o = Raised (RuntimeError m) -> List.filter is_restart tr = []).
Proof.
  unfold captured, primary_md5_at, new_standby_md5_at.
  unfold_stage.
  do 3 (run_step; [ | dead_branch ]).
  destruct (String.eqb _ _) eqn:Hfp; cbn -[strip String.eqb String.append Z.eqb];
    [ dead_branch | ].
  do 6 (run_step; [ | dead_branch ]).
  destruct (String.eqb (strip (stdout r0)) (strip (stdout r7))) eqn:Hnew;
    cbn -[strip String.eqb String.append Z.eqb].
  - apply String.eqb_eq in Hnew.
    run_step; intros [= <- <- <-]; cbn; rewrite ?Hrc0, ?Hrc7; cbn;
      (split; [ intros _; eexists; split; [reflexivity | congruence]
              | split; intros; congruence ]).
  - apply String.eqb_neq in Hnew.
    intros [= <- <- <-]; cbn; rewrite ?Hrc0, ?Hrc7; cbn.
    split; [ intros Hne; congruence | split; intros; split; congruence || reflexivity ].
Qed.

End AnyEnvironment.

End PasswordFileFacts.

(** ** The password-file stages on the host model *)

Module WorldFacts.
Import Py Gcloud PasswordFile RunFacts World PasswordFileFacts.

Lemma length_app_string (a b : string) :
  String.length (a +:+ b) = String.length a + String.length b.
Proof.
  induction a as [|c a IH]; [reflexivity|].
  change (String c a +:+ b) with (String c (a +:+ b)). simpl. congruence.
Qed.

(** The password file never sits at the staging path: ORACLE_HOME followed
    by "/dbs/" cannot spell "/tmp/". *)
Lemma orapw_path_not_tmp (home db : string) :
  home +:+ "/dbs/" +:+ "orapw" +:+ db <> "/tmp/" +:+ "orapw" +:+ db.
Proof.
  intros H. assert (L := f_equal String.length H).
  rewrite !length_app_string in L. simpl in L.
  destruct home; [ discriminate H | simpl in L; lia ].
Qed.

Lemma set_host_same (w : world) (i : string) (h : host) :
  hosts w !! i = Some h -> set_host w i h = w.
Proof.
  intros H. destruct w as [hs l c]. unfold set_host. simpl in *.
  f_equal. apply insert_id, H.
Qed.

Lemma hosts_set_host (w : world) (i j : string) (h : host) :
  hosts (set_host w i h) !! j = if decide (i = j) then Some h else hosts w !! j.
Proof. unfold set_host. simpl. apply lookup_insert. Qed.

Lemma local_fs_set_host (w : world) (i : string) (h : host) :
  local_fs (set_host w i h) = local_fs w.
Proof. reflexivity. Qed.

Lemma hosts_set_local (w : world) (m : gmap string file) :
  hosts (set_local w m) = hosts w.
Proof. reflexivity. Qed.

Lemma local_fs_set_local (w : world) (m : gmap string file) :
  local_fs (set_local w m) = m.
Proof. reflexivity. Qed.

Lemma cp_lookup (src dst : string) (m : gmap string file) (f : file) :
  m !! src = Some f ->
  cp src dst m = <[dst := {| content := content f; owner := "root"; mode := mode f |}]> m.
Proof. intros H. unfold cp. rewrite H. reflexivity. Qed.

Lemma chmod_insert (md k : string) (m : gmap string file) (f : file) :
  chmod md k (<[k := f]> m) =
  <[k := {| content := content f; owner := owner f; mode := md |}]> m.
Proof. unfold chmod. rewrite lookup_insert_eq. apply insert_insert_eq. Qed.

Lemma chown_insert (o k : string) (m : gmap string file) (f : file) :
  chown o k (<[k := f]> m) =
  <[k := {| content := content f; owner := o; mode := mode f |}]> m.
Proof. unfold chown. rewrite lookup_insert_eq. apply insert_insert_eq. Qed.

Lemma mv_insert (src dst : string) (m : gmap string file) (f : file) :
  mv src dst (<[src := f]> m) = <[dst := f]> (delete src m).
Proof. unfold mv. rewrite lookup_insert_eq, delete_insert_eq. reflexivity. Qed.

End WorldFacts.

Ltac wsimp :=
  cbn -[Py.strip String.eqb String.append World.set_host World.set_local
        World.chmod World.chown World.cp World.mv World.md5sum_output].

Ltac wnorm :=
  repeat (progress
    (repeat (rewrite WorldFacts.local_fs_set_local
             || rewrite WorldFacts.hosts_set_local
             || rewrite WorldFacts.local_fs_set_host
             || rewrite WorldFacts.hosts_set_host
             || rewrite lookup_insert_eq
             || (rewrite decide_True by reflexivity)
             || (rewrite decide_False by congruence));
     wsimp)).

Module SyncOnWorld.
Import Py Gcloud PasswordFile RunFacts World PasswordFileFacts WorldFacts.

Section Semantics.
Variables md5 transfer orapwd : string -> string.

(** The stage followed on the host model, outcome by outcome. *)
Lemma sync_world_run (w : world) (p sb z pr db : string)
    (w' : world) (tr : list event) (o : outcome unit) :
  run (world_env md5 transfer orapwd) w
      (sync_password_file_after_duplication p sb z pr db) = (w', tr, o) ->
  match o with
  | Returned _ =>
      exists hp, hosts w !! p = Some hp /\
        is_Some (fingerprint md5 w' p (orapw_path_of hp db)) /\
        fingerprint md5 w' p (orapw_path_of hp db) =
        fingerprint md5 w' sb (orapw_path_of hp db) /\
        (List.filter is_transfer tr = [] -> w' = w) /\
        (List.filter is_transfer tr <> [] ->
         is_Some (local_fs w' !! ("/tmp/" +:+ "orapw" +:+ db)))
  | Raised (RuntimeError _) =>
      exists hp hs hs' f,
        hosts w !! p = Some hp /\ hosts w !! sb = Some hs /\
        fs hp !! orapw_path_of hp db = Some f /\
        hosts w' !! sb = Some hs' /\
        fs hs' !! orapw_path_of hp db =
          Some {| content := transfer (transfer (content f));
                  owner := "oracle:oinstall"; mode := "640" |} /\
        restarts hs' = restarts hs /\
        nth_error tr 6 =
          Some (Ran (call_of (ComputeSsh sb z pr
                       (MoveIntoPlace ("/tmp/" +:+ "orapw" +:+ db)
                                      (orapw_path_of hp db))) true false)
                    (ok "")) /\
        length tr = 9
  | _ => True
  end.
Proof.
  unfold sync_password_file_after_duplication,
         gcloud_ssh_capture, gcloud_ssh, gcloud_scp, run_cmd, subprocess_run.
  wsimp.
  destruct (hosts w !! p) as [hp|] eqn:Hp; wsimp;
    [ | intros [= <- <- <-]; exact I ].
  rewrite (set_host_same _ _ _ Hp), Hp. wsimp.
  rewrite (set_host_same _ _ _ Hp).
  fold (orapw_path_of hp db).
  set (path := orapw_path_of hp db).
  destruct (hosts w !! sb) as [hs|] eqn:Hs; wsimp;
    [ | intros [= <- <- <-]; exact I ].
  rewrite (set_host_same _ _ _ Hs).
  destruct (String.eqb _ _) eqn:Hfp; wsimp.
  { intros [= <- <- <-]. exists hp. unfold fingerprint. rewrite Hp, Hs.
    apply String.eqb_eq in Hfp.
    split; [reflexivity|]. split; [eauto|]. split; [f_equal; exact Hfp|].
    split; [intros _; reflexivity | intros Hn; cbn in Hn; congruence]. }
  assert (Hne : p <> sb).
  { intros ->. rewrite Hp in Hs. injection Hs as ->.
    rewrite String.eqb_refl in Hfp. discriminate. }
  rewrite Hp. wsimp.
  destruct (fs hp !! path) as [f|] eqn:Hf; wsimp;
    [ | intros [= <- <- <-]; exact I ].
  set (tmp := "/tmp/" +:+ "orapw" +:+ db).
  rewrite (cp_lookup _ _ _ _ Hf), chmod_insert. wsimp.
  set (hp4 := set_fs hp _).
  wnorm.
  rewrite Hs. wsimp. wnorm.
  rewrite mv_insert, chown_insert, lookup_insert_eq, chmod_insert. wsimp.
  set (hs7 := set_fs (set_fs hs _) _).
  wnorm.
  assert (Hpt : path <> tmp) by apply orapw_path_not_tmp.
  destruct (String.eqb _ (strip (md5sum_output md5 hs7 path))) eqn:Hnew.
  - unfold mbind, py_bind. wnorm.
    intros [= <- <- <-]. exists hp. split; [reflexivity|].
    unfold fingerprint. wnorm.
    apply String.eqb_eq in Hnew.
    split; [eauto|]. split.
    + f_equal.
      transitivity (strip (md5sum_output md5 hp path)); [ | exact Hnew ].
      f_equal. unfold md5sum_output. cbn.
      rewrite lookup_delete_ne, lookup_insert_ne by exact (not_eq_sym Hpt).
      reflexivity.
    + split; [ intros Hn; cbn in Hn; discriminate Hn | intros _; eauto ].
  - unfold mbind, py_bind. wnorm.
    intros [= <- <- <-]. exists hp, hs, hs7, f.
    wnorm. repeat split; try assumption; try reflexivity.
Qed.

End Semantics.

End SyncOnWorld.

Module TransientFiles.
Import Py Gcloud PasswordFile RunFacts World PasswordFileFacts WorldFacts SyncOnWorld.

Section Semantics.
Variables md5 transfer orapwd : string -> string.

(** A call that is not a download leaves the control host's files alone; a
    download that succeeds leaves a file at its destination. *)
Lemma world_run_local_fs (w w' : world) (c : subprocess_call) (r : completed_process) :
  world_run md5 transfer orapwd w c = (w', r) ->
  match cmd c with
  | ComputeScp _ _ (Remote _ _) (Local lpath) =>
      returncode r = 0%Z -> is_Some (local_fs w' !! lpath)
  | _ => local_fs w' = local_fs w
  end.
Proof.
  unfold world_run. destruct (cmd c) as [k|i z p command|z p src dst|i z p|i z p d e|i z p|i z p].
  - intros [= <- <-]. reflexivity.
  - destruct (hosts w !! i) as [h|].
    + destruct (exec_remote md5 orapwd h command) as [h' r']. intros [= <- <-]. reflexivity.
    + intros [= <- <-]. reflexivity.
  - unfold exec_scp. destruct src as [lp|i path], dst as [lp'|i' path'].
    + intros [= <- <-]. reflexivity.
    + destruct (local_fs w !! lp), (hosts w !! i'); intros [= <- <-]; reflexivity.
    + destruct (hosts w !! i) as [h|]; [ destruct (fs h !! path) | ];
        intros [= <- <-]; cbn; intros Hrc; try discriminate Hrc.
      rewrite lookup_insert_eq. eauto.
    + intros [= <- <-]. reflexivity.
  - intros [= <- <-]. reflexivity.
  - intros [= <- <-]. reflexivity.
  - intros [= <- <-]. reflexivity.
  - intros [= <- <-]. reflexivity.
Qed.

Lemma setup_password_file_local_copy (w w' : world)
    (p sb z pr db pw : string) (tr : list event) :
  run (world_env md5 transfer orapwd) w (setup_password_file p sb z pr db pw) =
    (w', tr, Returned tt) ->
  is_Some (local_fs w' !! "/tmp/orapw_dataguard").
Proof.
  unfold setup_password_file, gcloud_ssh, gcloud_scp, run_cmd, subprocess_run.
  cbn -[strip String.eqb String.append Z.eqb world_run].
  repeat
    match goal with
    | |- context [world_run md5 transfer orapwd ?s ?c] =>
        let s1 := fresh "s" in
        let r := fresh "r" in
        let H := fresh "Hrun" in
        let Hrc := fresh "Hrc" in
        destruct (world_run md5 transfer orapwd s c) as [s1 r] eqn:H;
        apply world_run_local_fs in H; cbn [cmd] in H;
        destruct (returncode r =? 0)%Z eqn:Hrc;
        cbn -[strip String.eqb String.append Z.eqb world_run];
        [ | intros [=] ]
    end.
  intros [= <- <-].
  apply Z.eqb_eq in Hrc0.
  rewrite Hrun4, Hrun3, Hrun2, Hrun1. exact (Hrun0 Hrc0).
Qed.

End Semantics.

End TransientFiles.

(** ** Facts about LIKE *)

Module RedoLogPathFacts.
Import RedoLogPaths.

Lemma app_cons (c : ascii) (a b : string) :
  String c a +:+ b = String c (a +:+ b).
Proof. reflexivity. Qed.

Lemma like_percent_unfold (p s : string) :
  sql_like (String "%" p) s =
  sql_like p s || match s with
                  | String _ s' => sql_like (String "%" p) s'
                  | EmptyString => false
                  end.
Proof. destruct s; reflexivity. Qed.

(** A percent sign splits the string: some suffix matches the rest. *)
Lemma like_percent (p s : string) :
  sql_like (String "%" p) s = true <->
  exists a b, s = a +:+ b /\ sql_like p b = true.
Proof.
  induction s as [|c s IH].
  - rewrite like_percent_unfold, orb_false_r. split.
    + intros H. exists "", "". split; [reflexivity | exact H].
    + intros (a & b & Hab & H). destruct a; [ | discriminate Hab ].
      change ("" +:+ b) with b in Hab. subst b. exact H.
  - rewrite like_percent_unfold, orb_true_iff, IH. split.
    + intros [H | (a & b & -> & H)].
      * exists "", (String c s). split; [reflexivity | exact H].
      * exists (String c a), b. split; [reflexivity | exact H].
    + intros (a & b & Hab & H). destruct a as [|d a].
      * change ("" +:+ b) with b in Hab. subst b. left. exact H.
      * rewrite app_cons in Hab. injection Hab as -> ->. right. eauto.
Qed.

Lemma like_percent_only (s : string) : sql_like "%" s = true.
Proof.
  apply like_percent. exists s, "". split; [ | reflexivity ].
  induction s as [|c s IH]; [ reflexivity | rewrite app_cons; congruence ].
Qed.

(** A pattern without wildcards matches itself and nothing else. *)
Lemma like_plain (p s : string) :
  plain_name p = true -> (sql_like p s = true <-> s = p).
Proof.
  revert s. induction p as [|c p IH]; intros s Hp.
  - destruct s; cbn; split; congruence.
  - cbn in Hp. rewrite !andb_true_iff, !negb_true_iff in Hp.
    destruct Hp as [[[Hpc Hus] _] Hrest].
    cbn. rewrite Hpc, Hus. cbn. destruct s as [|d s]; [ split; discriminate | ].
    rewrite andb_true_iff, Ascii.eqb_eq, (IH s Hrest).
    split; [ intros [-> ->]; reflexivity | intros [= -> ->]; auto ].
Qed.

Lemma plain_name_no_separator (p a b : string) :
  plain_name p = true -> p <> a +:+ "/" +:+ b.
Proof.
  revert a. induction p as [|c p IH]; intros a Hp H.
  - destruct a; discriminate H.
  - cbn in Hp. rewrite !andb_true_iff, !negb_true_iff in Hp.
    destruct Hp as [[[_ _] Hsl] Hrest].
    destruct a as [|d a].
    + change ("" +:+ "/" +:+ b) with (String "/" b) in H.
      injection H as -> _. discriminate Hsl.
    + rewrite app_cons in H. injection H as _ H. exact (IH a Hrest H).
Qed.

(** The first pattern of the condition says: a plus sign, then a separator
    somewhere. *)
Lemma like_pool_path (s : string) :
  sql_like "+%/%" s = true <-> exists pool rest, s = "+" +:+ pool +:+ "/" +:+ rest.
Proof.
  destruct s as [|c s].
  - split; [ discriminate | intros (a & b & H); discriminate H ].
  - change (sql_like "+%/%" (String c s))
      with ((Ascii.eqb "+" "_" || Ascii.eqb "+" c) && sql_like "%/%" s).
    change (Ascii.eqb "+" "_") with false. cbn [orb].
    rewrite andb_true_iff, Ascii.eqb_eq, like_percent. split.
    + intros [<- (a & b & -> & H)].
      destruct b as [|d b]; [ discriminate H | ].
      change (sql_like "/%" (String d b))
        with ((Ascii.eqb "/" "_" || Ascii.eqb "/" d) && sql_like "%" b) in H.
      change (Ascii.eqb "/" "_") with false in H. cbn [orb] in H.
      apply andb_true_iff in H. destruct H as [H _].
      apply Ascii.eqb_eq in H. subst d. exists a, b. reflexivity.
    + intros (a & b & H). change ("+" +:+ a +:+ "/" +:+ b)
        with (String "+" (a +:+ "/" +:+ b)) in H.
      injection H as -> ->. split; [ reflexivity | ].
      exists a, ("/" +:+ b). split; [ reflexivity | ].
      change (sql_like "/%" ("/" +:+ b))
        with ((Ascii.eqb "/" "_" || Ascii.eqb "/" "/") && sql_like "%" b).
      rewrite like_percent_only. reflexivity.
Qed.

End RedoLogPathFacts.

(** ** Facts about the two loops over the standby log groups *)

Module StandbyLogFacts.
Import StandbyLogs.

Lemma has_group_false (g : N) (rows : list log_row) :
  has_group g rows = false <-> forall r, In r rows -> GROUP_no r <> g.
Proof.
  unfold has_group. induction rows as [|r rows IH]; cbn.
  - split; [ intros _ r [] | reflexivity ].
  - rewrite orb_false_iff, IH, N.eqb_neq. split.
    + intros [H1 H2] r' [<- | Hin]; auto.
    + intros H. split; [ apply H; left; reflexivity | intros r' Hin; apply H; right; exact Hin ].
Qed.

Lemma filter_all (A : Type) (f : A -> bool) (l : list A) :
  (forall x, In x l -> f x = true) -> List.filter f l = l.
Proof.
  induction l as [|a l IH]; cbn; intros H; [ reflexivity | ].
  rewrite (H a (or_introl eq_refl)). f_equal. apply IH. intros x Hx. apply H. right. exact Hx.
Qed.

(** Dropping, caught or not, leaves the online groups and takes the group
    out of the standby table. *)
Lemma attempt_drop (d : database) (g : N) :
  V_LOG (attempt d (DropStandbyLogfileGroup g)) = V_LOG d /\
  V_STANDBY_LOG (attempt d (DropStandbyLogfileGroup g)) =
  List.filter (fun r => negb (N.eqb (GROUP_no r) g)) (V_STANDBY_LOG d).
Proof.
  unfold attempt, execute_immediate.
  destruct (has_group g (V_STANDBY_LOG d)) eqn:Hg; cbn; [ split; reflexivity | ].
  split; [ reflexivity | ]. symmetry. apply filter_all.
  intros r Hr. apply negb_true_iff, N.eqb_neq.
  exact (proj1 (has_group_false g _) Hg r Hr).
Qed.

Lemma drop_loop (groups : list N) (d : database) :
  let d' := fold_left (fun d g => attempt d (DropStandbyLogfileGroup g)) groups d in
  V_LOG d' = V_LOG d /\
  forall r, In r (V_STANDBY_LOG d') -> In r (V_STANDBY_LOG d) /\ ~ In (GROUP_no r) groups.
Proof.
  revert d. induction groups as [|g groups IH]; intros d; cbn.
  - split; [ reflexivity | intros r Hr; split; [ exact Hr | intros [] ] ].
  - destruct (IH (attempt d (DropStandbyLogfileGroup g))) as [HL HS].
    destruct (attempt_drop d g) as [HL1 HS1].
    split; [ cbn in HL; congruence | ].
    intros r Hr. destruct (HS r Hr) as [Hin Hnot].
    rewrite HS1 in Hin. apply filter_In in Hin. destruct Hin as [Hin Hg].
    apply negb_true_iff, N.eqb_neq in Hg.
    split; [ exact Hin | intros [Heq | Hin']; [ congruence | contradiction ] ].
Qed.

Lemma no_member_nil (A : Type) (l : list A) :
  (forall x, ~ In x l) -> l = [].
Proof.
  destruct l as [|a l]; [ reflexivity | ].
  intros H. destruct (H a (or_introl eq_refl)).
Qed.

(** After the first loop no standby group is left. *)
Lemma drop_loop_empties (d : database) :
  let d' := fold_left (fun d g => attempt d (DropStandbyLogfileGroup g))
              (merge_sort N.le (List.map GROUP_no (V_STANDBY_LOG d))) d in
  V_LOG d' = V_LOG d /\ V_STANDBY_LOG d' = [].
Proof.
  cbn zeta.
  destruct (drop_loop (merge_sort N.le (List.map GROUP_no (V_STANDBY_LOG d))) d)
    as [HL HS].
  split; [ exact HL | ].
  apply no_member_nil. intros r Hr.
  destruct (HS r Hr) as [Hin Hnot]. apply Hnot.
  apply (Permutation_in _ (Permutation_sym (merge_sort_Permutation N.le _))).
  apply in_map. exact Hin.
Qed.

Lemma max_group_bound (rows : list log_row) :
  rows <> [] ->
  exists m, max_group rows = Some m /\ forall r, In r rows -> (GROUP_no r <= m)%N.
Proof.
  induction rows as [|r rows IH]; [ congruence | intros _ ].
  destruct rows as [|r' rows'].
  - exists (GROUP_no r). split; [ reflexivity | ].
    intros x [<- | []]. reflexivity.
  - destruct IH as (m & Hm & Hb); [ discriminate | ].
    exists (N.max (GROUP_no r) m). split.
    + change (max_group (r :: r' :: rows'))
        with (match max_group (r' :: rows') with
              | None => Some (GROUP_no r)
              | Some g => Some (N.max (GROUP_no r) g)
              end).
      rewrite Hm. reflexivity.
    + intros x [<- | Hin]; [ lia | specialize (Hb x Hin); lia ].
Qed.


Lemma add_loop (m : N) (dg : string) (size_mb : Q) (todo done : list N) (d : database) :
  (forall r, In r (V_LOG d) -> (GROUP_no r <= m)%N) ->
  V_STANDBY_LOG d = List.map (new_row m size_mb) done ->
  List.NoDup (done ++ todo) ->
  (forall i, In i todo -> (1 <= i)%N) ->
  let d' := fold_left
              (fun d i => attempt d (AddStandbyLogfileGroup (Some (m + i)%N) dg size_mb))
              todo d in
  V_LOG d' = V_LOG d /\
  V_STANDBY_LOG d' = List.map (new_row m size_mb) (done ++ todo).
Proof.
  revert done d. induction todo as [|i todo IH]; intros done d Hon Hsb Hnd Hpos; cbn.
  - rewrite app_nil_r. split; [ reflexivity | exact Hsb ].
  - assert (Hfree : has_group (m + i) (V_LOG d) || has_group (m + i) (V_STANDBY_LOG d) = false).
    { apply orb_false_iff. split; apply has_group_false; intros r Hr.
      - specialize (Hon r Hr). specialize (Hpos i (or_introl eq_refl)). lia.
      - rewrite Hsb in Hr. apply in_map_iff in Hr. destruct Hr as (j & <- & Hj).
        cbn. intros Heq. assert (j = i) by lia. subst j.
        apply NoDup_remove_2 in Hnd. apply Hnd. apply in_or_app. left. exact Hj. }
    assert (Hadd : attempt d (AddStandbyLogfileGroup (Some (m + i)%N) dg size_mb) =
                   {| V_LOG := V_LOG d;
                      V_STANDBY_LOG := V_STANDBY_LOG d ++ [new_row m size_mb i] |}).
    { unfold attempt, execute_immediate. rewrite Hfree. reflexivity. }
    rewrite Hadd.
    match goal with
    | |- context [fold_left ?f todo ?d1] =>
        destruct (IH (done ++ [i]) d1) as [HL HS]
    end.
    + exact Hon.
    + cbn. rewrite Hsb, map_app. reflexivity.
    + rewrite <- app_assoc. exact Hnd.
    + intros j Hj. apply Hpos. right. exact Hj.
    + cbn zeta in HL, HS. split; [ exact HL | ].
      rewrite HS, <- app_assoc. reflexivity.
Qed.

Lemma for_range_from_one (n : nat) :
  List.NoDup (for_range 1 n) /\ (forall i, In i (for_range 1 n) -> (1 <= i)%N) /\
  length (for_range 1 n) = n.
Proof.
  unfold for_range. replace (S n - 1) with n by lia. split; [ | split ].
  - apply Finite.Injective_map_NoDup; [ intros a b; apply Nat2N.inj | apply seq_NoDup ].
  - intros i Hi. apply in_map_iff in Hi. destruct Hi as (k & <- & Hk).
    apply in_seq in Hk. lia.
  - rewrite length_map, length_seq. reflexivity.
Qed.

End StandbyLogFacts.

(** ** Facts about waiting and about the workflows *)

Module WaitingFacts.
Import Py Gcloud RunFacts Workflow Workflow.SetupOracle Waiting.

Section AnyEnvironment.
Context {St : Type} (E : env St).

Lemma wait_loop_polling (fuel : nat) (instance zone project : string)
    (timeout start : Q) (s s' : St) (tr : list event) (o : outcome unit) :
  run E s (wait_loop fuel instance zone project timeout start) = (s', tr, o) ->
  polling (probe_call instance zone project) instance timeout start tr o.
Proof.
  revert s s' tr o. induction fuel as [|fuel IH]; intros s s' tr o.
  - cbn. intros [= <- <- <-]. constructor.
  - cbn -[Qlt_bool Z.eqb]. destruct (on_time E s) as [s1 t].
    destruct (Qlt_bool (t - start) timeout) eqn:Hlt.
    + cbn -[Qlt_bool Z.eqb].
      match goal with
      | |- context [on_run E s1 ?c] => destruct (on_run E s1 c) as [s2 r]
      end.
      cbn -[Qlt_bool Z.eqb].
      destruct (returncode r =? 0)%Z eqn:Hrc; cbn -[Qlt_bool Z.eqb].
      * intros [= <- <- <-]. apply polling_ready; [ exact Hlt | lia ].
      * destruct (run E (on_sleep E s2 10) (wait_loop fuel instance zone project timeout start))
          as [[s3 tr3] o3] eqn:Hrest.
        intros [= <- <- <-]. apply polling_retry; [ exact Hlt | lia | ].
        exact (IH _ _ _ _ Hrest).
    + cbn. intros [= <- <- <-]. apply polling_deadline. exact Hlt.
Qed.

Lemma wait_for_instance_polling (fuel : nat) (instance zone project : string)
    (timeout : Q) (s s' : St) (tr : list event) (o : outcome unit) :
  run E s (wait_for_instance fuel instance zone project timeout) = (s', tr, o) ->
  exists start tr', tr = Clock start :: tr' /\
    polling (probe_call instance zone project) instance timeout start tr' o.
Proof.
  unfold wait_for_instance. cbn -[wait_loop]. destruct (on_time E s) as [s1 start].
  destruct (run E s1 (wait_loop fuel instance zone project timeout start))
    as [[s2 tr2] o2] eqn:Hloop.
  intros [= <- <- <-]. exists start, tr2. split; [ reflexivity | ].
  exact (wait_loop_polling _ _ _ _ _ _ _ _ _ _ Hloop).
Qed.

Lemma wait_loop_S (fuel : nat) (instance zone project : string) (timeout start : Q) :
  wait_loop (S fuel) instance zone project timeout start =
  TimeTime (fun now =>
    if Qlt_bool (now - start) timeout then
      result ← run_cmd (ComputeSsh instance zone project ProbeTrue) false true;
      if (returncode result =? 0)%Z then mret tt
      else TimeSleep 10 (wait_loop fuel instance zone project timeout start)
    else Raise (TimeoutError instance timeout)).
Proof. reflexivity. Qed.

Variable now_of : St -> Q.
Hypothesis clock : steady_clock E now_of.

Lemma wait_loop_finishes (fuel : nat) (instance zone project : string)
    (timeout start : Q) (s : St) :
  (timeout <= (now_of s - start) + 10 * inject_Z (Z.of_nat fuel))%Q ->
  snd (run E s (wait_loop (S fuel) instance zone project timeout start)) <> Unfinished.
Proof.
  revert s. induction fuel as [|fuel IH]; intros s Hfuel.
  - cbn -[Qlt_bool Z.eqb]. destruct (on_time E s) as [s1 t] eqn:Ht.
    destruct (reading E now_of clock _ _ _ Ht) as [Hlo _].
    assert (Hlt : Qlt_bool (t - start) timeout = false).
    { unfold Qlt_bool. apply negb_false_iff, Qle_bool_iff.
      change (inject_Z (Z.of_nat 0)) with 0%Q in Hfuel. lra. }
    rewrite Hlt. cbn. discriminate.
  - rewrite wait_loop_S.
    cbn -[Qlt_bool Z.eqb wait_loop]. destruct (on_time E s) as [s1 t] eqn:Ht.
    destruct (reading E now_of clock _ _ _ Ht) as [Hlo Hhi].
    destruct (Qlt_bool (t - start) timeout) eqn:Hlt; [ | cbn; discriminate ].
    cbn -[Qlt_bool Z.eqb wait_loop].
    destruct (on_run E s1 _) as [s2 r] eqn:Hr.
    assert (Hcall := calling E now_of clock _ _ _ _ Hr).
    cbn -[Qlt_bool Z.eqb wait_loop].
    destruct (returncode r =? 0)%Z; cbn -[Qlt_bool Z.eqb wait_loop]; [ discriminate | ].
    assert (Hsleep := sleeping E now_of clock s2 10).
    specialize (IH (on_sleep E s2 10)).
    destruct (run E (on_sleep E s2 10) (wait_loop (S fuel) instance zone project timeout start))
      as [[s3 tr3] o3].
    cbn. cbn in IH. apply IH.
    rewrite Nat2Z.inj_succ, <- Z.add_1_r, inject_Z_plus in Hfuel.
    change (inject_Z 1) with 1%Q in Hfuel. lra.
Qed.

Lemma wait_for_instance_finishes (fuel : nat) (instance zone project : string)
    (timeout : Q) (s : St) :
  (timeout <= 10 * inject_Z (Z.of_nat fuel))%Q ->
  snd (run E s (wait_for_instance (S fuel) instance zone project timeout)) <> Unfinished.
Proof.
  intros Hfuel. unfold wait_for_instance. cbn -[wait_loop].
  destruct (on_time E s) as [s1 start] eqn:Ht.
  destruct (reading E now_of clock _ _ _ Ht) as [_ Hhi].
  assert (H := wait_loop_finishes fuel instance zone project timeout start s1).
  destruct (run E s1 (wait_loop (S fuel) instance zone project timeout start))
    as [[s2 tr2] o2].
  cbn. cbn in H. apply H. lra.
Qed.

End AnyEnvironment.

(** *** Programs without timeouts *)

Lemma untimed_bind {A B : Type} (m : py A) (f : A -> py B) :
  untimed m -> (forall a, untimed (f a)) -> untimed (bind m f).
Proof.
  intros Hm Hf. induction Hm; cbn; try (constructor; auto); auto.
Qed.

Lemma untimed_mbind {A B : Type} (m : py A) (f : A -> py B) :
  untimed m -> (forall a, untimed (f a)) -> untimed (m ≫= f).
Proof. apply untimed_bind. Qed.

Lemma untimed_mret {A : Type} (a : A) : untimed (mret a).
Proof. constructor. Qed.

Lemma untimed_run_cmd (g : gcloud) (chk cap : bool) : untimed (run_cmd g chk cap).
Proof.
  unfold run_cmd, subprocess_run. constructor; [ reflexivity | ].
  intros r. cbn. destruct (chk && negb (returncode r =? 0)%Z); constructor.
Qed.

Lemma untimed_wait_loop (fuel : nat) (instance zone project : string) (timeout start : Q) :
  untimed (wait_loop fuel instance zone project timeout start).
Proof.
  induction fuel as [|fuel IH]; cbn -[Qlt_bool]; [ constructor | ].
  constructor. intros t. destruct (Qlt_bool (t - start) timeout); [ | constructor ].
  constructor; [ reflexivity | ].
  intros r. destruct (returncode r =? 0)%Z; [ apply untimed_mret | ].
  constructor. exact IH.
Qed.

Lemma untimed_wait_for_instance (fuel : nat) (instance zone project : string) (timeout : Q) :
  untimed (wait_for_instance fuel instance zone project timeout).
Proof. constructor. intros start. apply untimed_wait_loop. Qed.

Lemma untimed_trace {St A : Type} (E : env St) (p : py A) :
  untimed p -> forall s, Forall event_untimed (snd (fst (run E s p))).
Proof.
  induction 1 as [a|e| |c k Hc Hk IH|k Hk IH|d k Hk IH]; intros s; cbn.
  - constructor.
  - constructor.
  - constructor.
  - destruct (on_run E s c) as [s1 r]. specialize (IH r s1).
    destruct (run E s1 (k r)) as [[s2 tr] o]. cbn in *. constructor; assumption.
  - destruct (on_time E s) as [s1 t]. specialize (IH t s1).
    destruct (run E s1 (k t)) as [[s2 tr] o]. cbn in *. constructor; [ exact I | assumption ].
  - specialize (IH (on_sleep E s d)).
    destruct (run E (on_sleep E s d) k) as [[s2 tr] o]. cbn in *.
    constructor; [ exact I | assumption ].
Qed.

End WaitingFacts.

(** Proves [untimed] for a program written with the helpers of the scripts. *)
Ltac untimed_steps :=
  repeat first
    [ apply WaitingFacts.untimed_mbind
    | apply WaitingFacts.untimed_bind
    | apply WaitingFacts.untimed_run_cmd
    | apply WaitingFacts.untimed_mret
    | apply WaitingFacts.untimed_wait_for_instance
    | apply Waiting.untimed_sleep
    | apply Waiting.untimed_raise
    | apply Waiting.untimed_return
    | intro
    | match goal with
      | |- Waiting.untimed (if ?b then _ else _) => destruct b
      | |- Waiting.untimed (match ?x with _ => _ end) => destruct x
      end ].

Module WorkflowFacts.
Import Py Names Gcloud PasswordFile RunFacts Workflow Waiting WaitingFacts.

Lemma untimed_setup_password_file (p sb z pr db pw : string) :
  untimed (setup_password_file p sb z pr db pw).
Proof.
  unfold setup_password_file, gcloud_ssh, gcloud_scp. untimed_steps.
Qed.

Lemma untimed_sync_password_file (p sb z pr db : string) :
  untimed (sync_password_file_after_duplication p sb z pr db).
Proof.
  unfold sync_password_file_after_duplication, gcloud_ssh_capture, gcloud_ssh, gcloud_scp.
  untimed_steps.
Qed.

Lemma untimed_dataguard_main (args : SetupDataguard.arguments) :
  untimed (SetupDataguard.main args).
Proof.
  unfold SetupDataguard.main, given_or_config, exit_unless_set, get_gcloud_config,
    get_instance_ip, SetupDataguard.configure_primary_for_dataguard,
    SetupDataguard.configure_bash_profiles, SetupDataguard.configure_tns_entries,
    SetupDataguard.configure_static_listener, SetupDataguard.remove_standby_database,
    SetupDataguard.create_standby_pfile, SetupDataguard.start_standby_nomount,
    SetupDataguard.duplicate_database, SetupDataguard.start_managed_recovery,
    SetupDataguard.fix_standby_redo_logs, SetupDataguard.enable_log_shipping,
    SetupDataguard.register_standby_with_cluster, SetupDataguard.validate_dataguard,
    gcloud_ssh.
  untimed_steps;
    first [ apply untimed_setup_password_file | apply untimed_sync_password_file ].
Qed.

Lemma untimed_oracle_main (fuel : nat) (args : SetupOracle.arguments) :
  untimed (SetupOracle.main fuel args).
Proof.
  unfold SetupOracle.main, given_or_config, exit_unless_set, get_gcloud_config,
    SetupOracle.delete_instance, SetupOracle.create_instance,
    SetupOracle.configure_kernel, SetupOracle.setup_prerequisites,
    SetupOracle.create_config_files, SetupOracle.install_oracle,
    SetupOracle.configure_oracle_sga, SetupOracle.configure_asmfd,
    SetupOracle.configure_asm_diskstring, SetupOracle.validate_setup,
    SetupOracle.gcloud_ssh.
  untimed_steps.
Qed.

(** The identifier check of setup_oracle.py: a name that does not start with
    ora- and a digit ends [main] with exit status 1 before any call. *)
Lemma oracle_main_rejects_identifier (fuel : nat) (args : SetupOracle.arguments)
    (e : exn) :
  parse_instance_number (SetupOracle.instance args) = inl e ->
  SetupOracle.main fuel args = Raise (SystemExit 1).
Proof.
  intros H. unfold SetupOracle.main, get_cdb_diskgroup_name, get_db_name. rewrite H.
  reflexivity.
Qed.

(** Without a project, given or configured, [main] of setup_dataguard.py
    exits with status 1 after the two configuration queries. *)
Lemma dataguard_main_exits_without_project {St : Type} (E : env St)
    (args : SetupDataguard.arguments) (s s1 s2 : St) (r1 r2 : completed_process) :
  SetupDataguard.project args = None -> SetupDataguard.zone args = None ->
  on_run E s (call_of (ConfigGetValue "project") true true) = (s1, r1) ->
  returncode r1 = 0%Z -> strip (stdout r1) = "" ->
  on_run E s1 (call_of (ConfigGetValue "compute/zone") true true) = (s2, r2) ->
  returncode r2 = 0%Z ->
  run E s (SetupDataguard.main args) =
  (s2, [Ran (call_of (ConfigGetValue "project") true true) r1;
        Ran (call_of (ConfigGetValue "compute/zone") true true) r2],
   Raised (SystemExit 1)).
Proof.
  intros Hp Hz H1 Z1 Hempty H2 Z2.
  unfold SetupDataguard.main, given_or_config, get_gcloud_config, run_cmd, subprocess_run,
    call_of in *.
  rewrite Hp, Hz. cbn -[strip derive_names].
  rewrite H1, Z1. cbn -[strip derive_names].
  rewrite H2, Z2. cbn -[strip derive_names].
  rewrite Hempty. reflexivity.
Qed.

End WorkflowFacts.

Module ScriptedFacts.
Import Py Gcloud Waiting Scripted.

Lemma scripted_clock : steady_clock scripted_env now.
Proof.
  split.
  - intros s s' t [= <- <-]. split; apply Qle_refl.
  - intros s s' c r. cbn. destruct (answers s) as [|[d code] rest]; intros [= <- <-]; cbn.
    + apply Qle_refl.
    + assert (H := Qabs_nonneg d). lra.
  - intros s d. cbn. assert (H := Qle_Qabs d). lra.
Qed.

End ScriptedFacts.

(** * Part III: the statements of the specification *)

(** ** The password-file stages *)

Module PasswordFileClaims.
Import Py Gcloud PasswordFile RunFacts World PasswordFileFacts WorldFacts SyncOnWorld.

(** C1.  When the two fingerprints computed at the start of
    [sync_password_file_after_duplication] are equal, the stage returns right
    after them: in any environment its trace is the ORACLE_HOME query and the
    two md5sum queries, with no scp call and no mutating call; on the host
    model the world it leaves is the world it found. *)
Theorem sync_equal_fingerprints_short_circuit :
  (forall (St : Type) (E : env St) (p sb z pr db : string) (s s1 s2 s3 : St)
          (r1 r2 r3 : completed_process),
     let capture i c := call_of (ComputeSsh i z pr c) true true in
     let orapw_path := strip (stdout r1) +:+ "/dbs/" +:+ "orapw" +:+ db in
     let tr := [Ran (capture p EchoOracleHome) r1;
                Ran (capture p (Md5sum orapw_path)) r2;
                Ran (capture sb (Md5sum orapw_path)) r3] in
     on_run E s (capture p EchoOracleHome) = (s1, r1) -> returncode r1 = 0%Z ->
     on_run E s1 (capture p (Md5sum orapw_path)) = (s2, r2) -> returncode r2 = 0%Z ->
     on_run E s2 (capture sb (Md5sum orapw_path)) = (s3, r3) -> returncode r3 = 0%Z ->
     strip (stdout r2) = strip (stdout r3) ->
     run E s (sync_password_file_after_duplication p sb z pr db) = (s3, tr, Returned tt) /\
     List.filter is_transfer tr = [] /\
     List.filter is_remote_mutation tr = []) /\
  (forall (md5 transfer orapwd : string -> string) (w : world)
          (p sb z pr db : string) (hp hs : host),
     hosts w !! p = Some hp -> hosts w !! sb = Some hs ->
     strip (md5sum_output md5 hp (orapw_path_of hp db)) =
     strip (md5sum_output md5 hs (orapw_path_of hp db)) ->
     exists tr,
       run (world_env md5 transfer orapwd) w
           (sync_password_file_after_duplication p sb z pr db) = (w, tr, Returned tt) /\
       length tr = 3 /\
       List.filter is_transfer tr = [] /\
       List.filter is_remote_mutation tr = []).
Proof.
  split.
  - intros St E p sb z pr db s s1 s2 s3 r1 r2 r3 capture orapw_path tr
           H1 Z1 H2 Z2 H3 Z3 Heq.
    split; [ | split; reflexivity ].
    exact (sync_short_circuit_run E p sb z pr db s s1 s2 s3 r1 r2 r3
             H1 Z1 H2 Z2 H3 Z3 Heq).
  - intros md5 transfer orapwd w p sb z pr db hp hs Hp Hs Heq.
    eexists. split; [ | split; [ | split ] ].
    + eapply (sync_short_circuit_run (world_env md5 transfer orapwd)
                p sb z pr db w w w w).
      * cbn. rewrite Hp. cbn. rewrite (set_host_same _ _ _ Hp). reflexivity.
      * reflexivity.
      * cbn. rewrite Hp. cbn. rewrite (set_host_same _ _ _ Hp). reflexivity.
      * reflexivity.
      * cbn. rewrite Hs. cbn. rewrite (set_host_same _ _ _ Hs). reflexivity.
      * reflexivity.
      * exact Heq.
    + reflexivity.
    + reflexivity.
    + reflexivity.
Qed.

Lemma sync_equal_fingerprints_short_circuit_witness :
  exists tr,
    run (world_env Demo.digest Demo.exact Demo.exact) Demo.world_in_sync
        (sync_password_file_after_duplication "ora-1" "ora-2" "zone" "project" "ORA1") =
    (Demo.world_in_sync, tr, Returned tt) /\
    length tr = 3 /\
    List.filter is_transfer tr = [] /\
    List.filter is_remote_mutation tr = [].
Proof.
  apply (proj2 sync_equal_fingerprints_short_circuit
           Demo.digest Demo.exact Demo.exact Demo.world_in_sync
           "ora-1" "ora-2" "zone" "project" "ORA1"
           (Demo.instance_with "primary-image") (Demo.instance_with "primary-image"));
    vm_compute; reflexivity.
Defined.

(** C2.  On the host model, whenever the stage returns, recomputing the
    fingerprint on both sides gives the same value.  In any environment, a
    recomputed standby fingerprint that differs from the primary's makes the
    stage raise its RuntimeError (the spec's IntegrityError) with no restart
    call in the trace; a restart call appears only behind a recomputed
    fingerprint equal to the primary's. *)
Theorem sync_verifies_before_restart :
  (forall (md5 transfer orapwd : string -> string) (w w' : world)
          (p sb z pr db : string) (tr : list event),
     run (world_env md5 transfer orapwd) w
         (sync_password_file_after_duplication p sb z pr db) = (w', tr, Returned tt) ->
     exists hp, hosts w !! p = Some hp /\
       is_Some (fingerprint md5 w' p (orapw_path_of hp db)) /\
       fingerprint md5 w' p (orapw_path_of hp db) =
       fingerprint md5 w' sb (orapw_path_of hp db)) /\
  (forall (St : Type) (E : env St) (p sb z pr db : string) (s s' : St)
          (tr : list event) (o : outcome unit),
     run E s (sync_password_file_after_duplication p sb z pr db) = (s', tr, o) ->
     (forall f f', captured tr primary_md5_at = Some f ->
        captured tr new_standby_md5_at = Some f' -> f <> f' ->
        o = Raised (RuntimeError "Password file synchronization failed") /\
        List.filter is_restart tr = []) /\
     (forall m, o = Raised (RuntimeError m) -> List.filter is_restart tr = []) /\
     (List.filter is_restart tr <> [] ->
        exists f, captured tr primary_md5_at = Some f /\
                  captured tr new_standby_md5_at = Some f)).
Proof.
  split.
  - intros md5 transfer orapwd w w' p sb z pr db tr Hrun.
    destruct (sync_world_run md5 transfer orapwd w p sb z pr db w' tr _ Hrun)
      as (hp & Hp & Hsome & Heq & _).
    exists hp. auto.
  - intros St E p sb z pr db s s' tr o Hrun.
    destruct (sync_run_inversion E p sb z pr db s s' tr o Hrun) as (H1 & H2 & H3).
    auto.
Qed.

Lemma sync_verifies_before_restart_witness :
  let r := run (world_env Demo.digest Demo.exact Demo.exact) Demo.world_after_duplication
             (sync_password_file_after_duplication "ora-1" "ora-2" "zone" "project" "ORA1") in
  exists hp, hosts Demo.world_after_duplication !! "ora-1" = Some hp /\
    is_Some (fingerprint Demo.digest (fst (fst r)) "ora-1" (orapw_path_of hp "ORA1")) /\
    fingerprint Demo.digest (fst (fst r)) "ora-1" (orapw_path_of hp "ORA1") =
    fingerprint Demo.digest (fst (fst r)) "ora-2" (orapw_path_of hp "ORA1").
Proof.
  intros r.
  apply (proj1 sync_verifies_before_restart
           Demo.digest Demo.exact Demo.exact Demo.world_after_duplication
           (fst (fst r)) "ora-1" "ora-2" "zone" "project" "ORA1" (snd (fst r))).
  vm_compute. reflexivity.
Defined.

(** C10.  When the stage ends with its RuntimeError, the standby's password
    file is the copy that came through the transfer, owned and protected as
    the stage sets it; the move that put it there is the seventh call of
    nine, nothing after it writes the file back, and the standby was not
    restarted.  So the file differs from the one found there whenever the
    copy does. *)
Theorem sync_failure_leaves_transferred_copy
    (md5 transfer orapwd : string -> string) (w w' : world)
    (p sb z pr db m : string) (tr : list event) :
  run (world_env md5 transfer orapwd) w
      (sync_password_file_after_duplication p sb z pr db) =
    (w', tr, Raised (RuntimeError m)) ->
  exists hp hs hs' f,
    hosts w !! p = Some hp /\ hosts w !! sb = Some hs /\
    fs hp !! orapw_path_of hp db = Some f /\
    hosts w' !! sb = Some hs' /\
    let copy := {| content := transfer (transfer (content f));
                   owner := "oracle:oinstall"; mode := "640" |} in
    fs hs' !! orapw_path_of hp db = Some copy /\
    (fs hs !! orapw_path_of hp db <> Some copy ->
     fs hs' !! orapw_path_of hp db <> fs hs !! orapw_path_of hp db) /\
    restarts hs' = restarts hs /\
    nth_error tr 6 =
      Some (Ran (call_of (ComputeSsh sb z pr
                   (MoveIntoPlace ("/tmp/" +:+ "orapw" +:+ db)
                                  (orapw_path_of hp db))) true false)
                (ok "")) /\
    length tr = 9.
Proof.
  intros Hrun.
  destruct (sync_world_run md5 transfer orapwd w p sb z pr db w' tr _ Hrun)
    as (hp & hs & hs' & f & Hp & Hs & Hf & Hs' & Hcopy & Hr & Hmv & Hlen).
  exists hp, hs, hs', f. cbn zeta.
  repeat split; try assumption.
  intros Hold. rewrite Hcopy. congruence.
Qed.

Lemma sync_failure_leaves_transferred_copy_witness :
  let r := run (world_env Demo.digest Demo.damaged Demo.exact) Demo.world_after_duplication
             (sync_password_file_after_duplication "ora-1" "ora-2" "zone" "project" "ORA1") in
  exists hp hs hs' f,
    hosts Demo.world_after_duplication !! "ora-1" = Some hp /\
    hosts Demo.world_after_duplication !! "ora-2" = Some hs /\
    fs hp !! orapw_path_of hp "ORA1" = Some f /\
    hosts (fst (fst r)) !! "ora-2" = Some hs' /\
    let copy := {| content := Demo.damaged (Demo.damaged (content f));
                   owner := "oracle:oinstall"; mode := "640" |} in
    fs hs' !! orapw_path_of hp "ORA1" = Some copy /\
    (fs hs !! orapw_path_of hp "ORA1" <> Some copy ->
     fs hs' !! orapw_path_of hp "ORA1" <> fs hs !! orapw_path_of hp "ORA1") /\
    restarts hs' = restarts hs /\
    nth_error (snd (fst r)) 6 =
      Some (Ran (call_of (ComputeSsh "ora-2" "zone" "project"
                   (MoveIntoPlace ("/tmp/" +:+ "orapw" +:+ "ORA1")
                                  (orapw_path_of hp "ORA1"))) true false)
                (ok "")) /\
    length (snd (fst r)) = 9.
Proof.
  intros r.
  apply (sync_failure_leaves_transferred_copy
           Demo.digest Demo.damaged Demo.exact Demo.world_after_duplication
           (fst (fst r)) "ora-1" "ora-2" "zone" "project" "ORA1"
           "Password file synchronization failed" (snd (fst r))).
  vm_compute. reflexivity.
Defined.

End PasswordFileClaims.

Module TransientFileClaims.
Import Py Gcloud PasswordFile RunFacts World PasswordFileFacts WorldFacts SyncOnWorld
       TransientFiles.

(** C8.  The claim asks that every staged copy be gone once the two stages
    have completed.  The copies under /tmp on the two instances are (the
    primary's is removed, the standby's is moved into place), but neither
    stage removes the copy it staged on the control host: after
    [setup_password_file] returns, /tmp/orapw_dataguard is still there, and
    after [sync_password_file_after_duplication] returns from a run that
    transferred the file, /tmp/orapw<db_name> is still there. *)
Theorem password_file_stages_leave_local_copy
    (md5 transfer orapwd : string -> string) (w w' : world)
    (p sb z pr db pw : string) (tr : list event) :
  (run (world_env md5 transfer orapwd) w (setup_password_file p sb z pr db pw) =
     (w', tr, Returned tt) ->
   is_Some (local_fs w' !! "/tmp/orapw_dataguard")) /\
  (run (world_env md5 transfer orapwd) w
       (sync_password_file_after_duplication p sb z pr db) = (w', tr, Returned tt) ->
   List.filter is_transfer tr <> [] ->
   is_Some (local_fs w' !! ("/tmp/" +:+ "orapw" +:+ db))).
Proof.
  split.
  - apply setup_password_file_local_copy.
  - intros Hrun Htr.
    destruct (sync_world_run md5 transfer orapwd w p sb z pr db w' tr _ Hrun)
      as (hp & _ & _ & _ & _ & Hlocal).
    exact (Hlocal Htr).
Qed.

Lemma password_file_stages_leave_local_copy_witness :
  let r := run (world_env Demo.digest Demo.exact Demo.exact) Demo.world_after_duplication
             (setup_password_file "ora-1" "ora-2" "zone" "project" "ORA1" "secret") in
  is_Some (local_fs (fst (fst r)) !! "/tmp/orapw_dataguard").
Proof.
  intros r.
  apply (proj1 (password_file_stages_leave_local_copy
                  Demo.digest Demo.exact Demo.exact Demo.world_after_duplication
                  (fst (fst r)) "ora-1" "ora-2" "zone" "project" "ORA1" "secret"
                  (snd (fst r)))).
  vm_compute. reflexivity.
Defined.

(** The same on the concrete hosts: both stages return, the copies under
    /tmp on the instances are gone, the two local copies remain. *)
Example stages_on_demo_hosts :
  let E := world_env Demo.digest Demo.exact Demo.exact in
  let r1 := run E Demo.world_after_duplication
              (setup_password_file "ora-1" "ora-2" "zone" "project" "ORA1" "secret") in
  let r2 := run E Demo.world_after_duplication
              (sync_password_file_after_duplication "ora-1" "ora-2" "zone" "project" "ORA1") in
  let tmp_on (w : world) (i : string) :=
    h ← hosts w !! i; fs h !! "/tmp/orapwORA1" in
  snd r1 = Returned tt /\ snd r2 = Returned tt /\
  tmp_on (fst (fst r1)) "ora-1" = None /\ tmp_on (fst (fst r1)) "ora-2" = None /\
  tmp_on (fst (fst r2)) "ora-1" = None /\ tmp_on (fst (fst r2)) "ora-2" = None /\
  local_fs (fst (fst r1)) !! "/tmp/orapw_dataguard" =
    Some {| content := "secret"; owner := "user"; mode := "644" |} /\
  local_fs (fst (fst r2)) !! "/tmp/orapwORA1" =
    Some {| content := "primary-image"; owner := "user"; mode := "644" |}.
Proof. vm_compute. repeat split; reflexivity. Qed.

End TransientFileClaims.

(** ** Names and command texts *)

Module NameClaims.
Import Py Names CommandText.

(** What an accepted pair of identifiers yields. *)
Lemma derive_names_inr (primary standby : string) (n : replication_names) :
  derive_names primary standby = inr n ->
  split_suffix primary = inr (primary_num n) /\
  split_suffix standby = inr (standby_num n) /\
  db_name n = "ORA" +:+ primary_num n /\
  primary_db_unique_name n = db_name n /\
  standby_db_unique_name n = db_name n +:+ "_STBY" /\
  primary_diskgroup n = "DGORA" +:+ primary_num n /\
  standby_diskgroup n = "DGORA" +:+ standby_num n.
Proof.
  unfold derive_names.
  destruct (split_suffix primary) as [e|pnum]; [discriminate|].
  destruct (split_suffix standby) as [e|snum]; [discriminate|].
  intros [= <-]. cbn. repeat split; reflexivity.
Qed.

(** C5 as written does not hold: for role-1 and role-2 the names derived are
    ORA1, ORA1_STBY, DGORA1 and DGORA2, not ROLE1 and POOLROLE1. *)
Lemma role_names_counterexample :
  ~ (exists n, derive_names "role-1" "role-2" = inr n /\
       db_name n = "ROLE1" /\ primary_db_unique_name n = "ROLE1" /\
       standby_db_unique_name n = "ROLE1_STBY" /\
       primary_diskgroup n = "POOLROLE1" /\ standby_diskgroup n = "POOLROLE2").
Proof.
  intros (n & Hn & Hdb & _). vm_compute in Hn. injection Hn as <-.
  discriminate Hdb.
Qed.

(** C5, amended.  Whatever two identifiers [main] of setup_dataguard.py
    accepts, the database name is ORA followed by the primary's suffix and is
    the one name of both roles; the primary's unique name is that name, the
    standby's is that name followed by _STBY, and each disk group is DGORA
    followed by the suffix of its own instance.  For ora-1 and ora-2 (and
    equally for role-1 and role-2, the prefix being ignored) that is ORA1,
    ORA1, ORA1_STBY, DGORA1, DGORA2; setup_oracle.py gives ora-1 the same
    database name and each instance the same disk group. *)
Theorem derived_names_follow_convention :
  (forall (primary standby : string) (n : replication_names),
     derive_names primary standby = inr n ->
     split_suffix primary = inr (primary_num n) /\
     split_suffix standby = inr (standby_num n) /\
     db_name n = "ORA" +:+ primary_num n /\
     primary_db_unique_name n = db_name n /\
     standby_db_unique_name n = db_name n +:+ "_STBY" /\
     primary_diskgroup n = "DGORA" +:+ primary_num n /\
     standby_diskgroup n = "DGORA" +:+ standby_num n) /\
  (let expected :=
     {| primary_num := "1"; standby_num := "2";
        db_name := "ORA1";
        primary_db_unique_name := "ORA1";
        standby_db_unique_name := "ORA1_STBY";
        primary_diskgroup := "DGORA1";
        standby_diskgroup := "DGORA2" |} in
   derive_names "ora-1" "ora-2" = inr expected /\
   derive_names "role-1" "role-2" = inr expected) /\
  get_db_name "ora-1" = inr "ORA1" /\
  get_cdb_diskgroup_name "ora-1" = inr "DGORA1" /\
  get_cdb_diskgroup_name "ora-2" = inr "DGORA2".
Proof.
  split; [ exact derive_names_inr | repeat split; reflexivity ].
Qed.

Lemma derived_names_follow_convention_witness :
  exists n, derive_names "ora-1" "ora-2" = inr n /\
    db_name n = "ORA" +:+ primary_num n /\
    primary_db_unique_name n = db_name n /\
    standby_db_unique_name n = db_name n +:+ "_STBY" /\
    primary_diskgroup n = "DGORA" +:+ primary_num n /\
    standby_diskgroup n = "DGORA" +:+ standby_num n.
Proof.
  eexists. split; [ reflexivity | ].
  apply (proj1 derived_names_follow_convention "ora-1" "ora-2"). reflexivity.
Defined.



End NameClaims.

(** ** The redo-log repair *)

Module RedoLogPathClaims.
Import RedoLogPaths RedoLogPathFacts.

Lemma lacks_separator_iff (path : string) :
  negb (sql_like "+%/%" path) = true <-> lacks_separator path.
Proof.
  unfold lacks_separator. rewrite negb_true_iff, <- like_pool_path.
  destruct (sql_like "+%/%" path); split; congruence.
Qed.

Lemma bare_pool_token_iff (pool_name path : string) :
  plain_name pool_name = true ->
  (sql_like ("+" +:+ pool_name) path = true <-> bare_pool_token pool_name path).
Proof.
  intros Hp. apply like_plain. exact Hp.
Qed.

Lemma bare_pool_token_lacks_separator (pool_name path : string) :
  plain_name pool_name = true ->
  bare_pool_token pool_name path -> lacks_separator path.
Proof.
  intros Hp -> (pool & rest & H).
  change ("+" +:+ pool_name) with (String "+" pool_name) in H.
  change ("+" +:+ pool +:+ "/" +:+ rest) with (String "+" (pool +:+ "/" +:+ rest)) in H.
  injection H as H. exact (plain_name_no_separator _ _ _ Hp H).
Qed.

(** C3.  For a pool name made of ordinary characters and a member path that
    is not NULL, both conditions of the repair stage (the cursor over the
    non-current groups, and the query for the current group) select the path
    exactly when it has no separator behind a leading plus sign, or is the
    bare +<pool name>, or is shorter than ten characters.  For POOL1, of
    +POOL1/subpath/file, +POOL1, +P and nopoolprefix/x, the last three are
    selected and the first is not. *)
Theorem redo_log_member_classifier :
  (forall pool_name path : string,
     plain_name pool_name = true -> path <> "" ->
     (member_invalid pool_name path = true <-> flagged_by_spec pool_name path) /\
     (member_invalid_current path = true <-> flagged_by_spec pool_name path)) /\
  (member_invalid "POOL1" "+POOL1/subpath/file" = false /\
   member_invalid "POOL1" "+POOL1" = true /\
   member_invalid "POOL1" "+P" = true /\
   member_invalid "POOL1" "nopoolprefix/x" = true) /\
  (member_invalid_current "+POOL1/subpath/file" = false /\
   member_invalid_current "+POOL1" = true /\
   member_invalid_current "+P" = true /\
   member_invalid_current "nopoolprefix/x" = true).
Proof.
  split; [ | split; repeat split; reflexivity ].
  intros pool_name path Hp Hne.
  destruct path as [|c s]; [ congruence | ].
  set (path := String c s) in *.
  unfold flagged_by_spec, implausibly_short.
  change (member_invalid pool_name path)
    with (negb (sql_like "+%/%" path) || sql_like ("+" +:+ pool_name) path
          || Nat.ltb (String.length path) 10).
  change (member_invalid_current path)
    with (negb (sql_like "+%/%" path) || Nat.ltb (String.length path) 10).
  rewrite !orb_true_iff, lacks_separator_iff, (bare_pool_token_iff _ _ Hp),
    Nat.ltb_lt.
  split; [ tauto | ].
  split; [ tauto | ].
  intros [H | [H | H]]; auto.
  left. exact (bare_pool_token_lacks_separator _ _ Hp H).
Qed.

Lemma redo_log_member_classifier_witness :
  (member_invalid "POOL1" "+POOL1/subpath/file" = true <->
   flagged_by_spec "POOL1" "+POOL1/subpath/file") /\
  (member_invalid_current "+POOL1/subpath/file" = true <->
   flagged_by_spec "POOL1" "+POOL1/subpath/file").
Proof.
  apply (proj1 redo_log_member_classifier "POOL1" "+POOL1/subpath/file").
  - reflexivity.
  - discriminate.
Defined.

(** What the hypothesis on the pool name keeps out: in a name, an underscore
    is a wildcard to LIKE, so a path that is not the bare token can match
    it. *)
Example like_reads_pool_name_as_pattern :
  member_invalid "DGORA_STBY1" "+DGORA/STBY1" = true /\
  ~ flagged_by_spec "DGORA_STBY1" "+DGORA/STBY1".
Proof.
  split; [ reflexivity | ].
  intros [H | [H | H]].
  - apply H. exists "DGORA", "STBY1". reflexivity.
  - discriminate H.
  - unfold implausibly_short in H. cbn in H. lia.
Qed.

End RedoLogPathClaims.

Module StandbyLogClaims.
Import StandbyLogs StandbyLogFacts.



(** With none, with N, and with N+2 standby groups beforehand, the numbers
    of the groups left are the same four. *)
Example standby_groups_from_any_start :
  let online := V_LOG Demo.demo_database in
  let start (before : list log_row) := {| V_LOG := online; V_STANDBY_LOG := before |} in
  let groups_after (before : list log_row) :=
    List.map GROUP_no (V_STANDBY_LOG (recreate_standby_logs "DGORA2" (start before))) in
  groups_after [] = [4; 5; 6; 7]%N /\
  groups_after (firstn 3 (V_STANDBY_LOG Demo.demo_database)) = [4; 5; 6; 7]%N /\
  groups_after (V_STANDBY_LOG Demo.demo_database) = [4; 5; 6; 7]%N.
Proof. vm_compute. repeat split; reflexivity. Qed.

(** Without online groups MAX(GROUP#) is NULL, no ADD statement is
    well-formed, and no standby group is created. *)
Example no_online_groups_no_standby_groups :
  V_STANDBY_LOG (recreate_standby_logs "DGORA2"
                   {| V_LOG := []; V_STANDBY_LOG := [ {| GROUP_no := 4; BYTES := Demo.mb 50 |} ] |})
  = [].
Proof. reflexivity. Qed.

End StandbyLogClaims.

(** ** Waiting, and resolving the targets *)

Module WorkflowClaims.
Import Py Names Gcloud PasswordFile RunFacts Workflow Workflow.SetupOracle Waiting WaitingFacts WorkflowFacts World.

Lemma polling_outcome (probe : subprocess_call) (instance : string)
    (timeout start : Q) (tr : list event) (o : outcome unit) :
  polling probe instance timeout start tr o ->
  match o with
  | Returned _ =>
      exists before t r, tr = before ++ [Clock t; Ran probe r] /\ returncode r = 0%Z
  | Raised e =>
      e = TimeoutError instance timeout /\
      exists before t, tr = before ++ [Clock t] /\ Qlt_bool (t - start) timeout = false
  | Unfinished => True
  end.
Proof.
  induction 1 as [|t Hlt|t r Hlt Hrc|t r tr o Hlt Hrc Hrest IH].
  - exact I.
  - split; [ reflexivity | ]. exists [], t. split; [ reflexivity | exact Hlt ].
  - exists [], t, r. split; [ reflexivity | exact Hrc ].
  - destruct o as [[]|e|].
    + destruct IH as (before & t' & r' & -> & Hr').
      exists (Clock t :: Ran probe r :: Slept 10 :: before), t', r'.
      split; [ reflexivity | exact Hr' ].
    + destruct IH as (-> & before & t' & -> & Ht').
      split; [ reflexivity | ].
      exists (Clock t :: Ran probe r :: Slept 10 :: before), t'.
      split; [ reflexivity | exact Ht' ].
    + exact I.
Qed.

(** C9.  In any environment the trace of [wait_for_instance] is a reading of
    the start time followed by rounds of: a reading that is still within
    [timeout] of the start, a probe that fails, a sleep of ten seconds;
    it returns at the first probe that succeeds and raises TimeoutError at
    the first reading that is not within [timeout] of the start.  On a
    steady clock, timeout/10 + 1 unfoldings of the loop always suffice.  The
    default deadline is 300 seconds, and neither the probe nor any other
    call of the two workflows passes a timeout to [subprocess.run]. *)
Theorem wait_for_instance_bounded_polling :
  (forall (St : Type) (E : env St) (fuel : nat) (instance zone project : string)
          (timeout : Q) (s s' : St) (tr : list event) (o : outcome unit),
     run E s (wait_for_instance fuel instance zone project timeout) = (s', tr, o) ->
     exists start tr', tr = Clock start :: tr' /\
       polling (probe_call instance zone project) instance timeout start tr' o /\
       match o with
       | Returned _ =>
           exists before t r,
             tr' = before ++ [Clock t; Ran (probe_call instance zone project) r] /\
             returncode r = 0%Z
       | Raised e =>
           e = TimeoutError instance timeout /\
           exists before t, tr' = before ++ [Clock t] /\
                            Qlt_bool (t - start) timeout = false
       | Unfinished => True
       end) /\
  (forall (St : Type) (E : env St) (now_of : St -> Q),
     steady_clock E now_of ->
     forall (fuel : nat) (instance zone project : string) (timeout : Q) (s : St),
       (timeout <= 10 * inject_Z (Z.of_nat fuel))%Q ->
       snd (run E s (wait_for_instance (S fuel) instance zone project timeout))
       <> Unfinished) /\
  (default_timeout == 300)%Q /\
  (forall args, untimed (SetupDataguard.main args)) /\
  (forall fuel args, untimed (SetupOracle.main fuel args)) /\
  (forall (St A : Type) (E : env St) (p : py A),
     untimed p -> forall s, Forall event_untimed (snd (fst (run E s p)))).
Proof.
  split; [ | split; [ | split; [ | split; [ | split ] ] ] ].
  - intros St E fuel instance zone project timeout s s' tr o Hrun.
    destruct (wait_for_instance_polling E _ _ _ _ _ _ _ _ _ Hrun) as (start & tr' & -> & Hp).
    exists start, tr'. split; [ reflexivity | ]. split; [ exact Hp | ].
    exact (polling_outcome _ _ _ _ _ _ Hp).
  - intros St E now_of Hclock fuel instance zone project timeout s Hfuel.
    exact (wait_for_instance_finishes E now_of Hclock fuel instance zone project timeout s Hfuel).
  - reflexivity.
  - exact untimed_dataguard_main.
  - exact untimed_oracle_main.
  - intros St A E p Hp s. exact (untimed_trace E p Hp s).
Qed.

Lemma wait_for_instance_bounded_polling_witness :
  snd (run Scripted.scripted_env Demo.demo_script
         (wait_for_instance 4 "ora-1" "zone" "project" 30)) <> Unfinished.
Proof.
  apply (proj1 (proj2 wait_for_instance_bounded_polling)
           Scripted.script Scripted.scripted_env Scripted.now ScriptedFacts.scripted_clock
           3 "ora-1" "zone" "project" 30%Q Demo.demo_script).
  vm_compute. discriminate.
Defined.

(** The runs behind the witness: ready at the third probe; and, when no
    probe ever succeeds, TimeoutError after three rounds. *)
Example wait_for_instance_on_scripts :
  snd (run Scripted.scripted_env Demo.demo_script
         (wait_for_instance 4 "ora-1" "zone" "project" 30)) = Returned tt /\
  List.map (fun ev => match ev with Slept d => Some d | _ => None end)
      (List.filter (fun ev => match ev with Slept _ => true | _ => false end)
         (snd (fst (run Scripted.scripted_env Demo.demo_script
                      (wait_for_instance 4 "ora-1" "zone" "project" 30)))))
    = [Some 10%Q; Some 10%Q] /\
  snd (run Scripted.scripted_env {| Scripted.now := 0; Scripted.answers := [] |}
         (wait_for_instance 4 "ora-1" "zone" "project" 30))
    = Raised (TimeoutError "ora-1" 30).
Proof. vm_compute. repeat split; reflexivity. Qed.

(** C6.  The claim asks that an identifier outside the convention stop the
    resolution before anything is changed.  setup_oracle.py does that
    ([oracle_main_rejects_identifier]); [main] of setup_dataguard.py does
    not check: given db-x and db-y, which [parse_instance_number] rejects, it
    derives ORAx, DGORAx and DGORAy and runs the whole workflow. *)
Theorem dataguard_main_accepts_unconventional_identifiers :
  let args := {| SetupDataguard.primary := "db-x";
                 SetupDataguard.standby := "db-y";
                 SetupDataguard.project := Some "project";
                 SetupDataguard.zone := Some "zone";
                 SetupDataguard.skip_primary_config := false;
                 SetupDataguard.skip_duplication := false;
                 SetupDataguard.sys_password := "secret" |} in
  let hosts_xy : world :=
    {| hosts := {[ "db-x" := Demo.instance_with "primary-image";
                   "db-y" := Demo.instance_with "standby-image" ]};
       local_fs := ∅; clock := 0 |} in
  let r := run (world_env Demo.digest Demo.exact Demo.exact) hosts_xy (SetupDataguard.main args) in
  (exists e, parse_instance_number "db-x" = inl e) /\
  (exists e, parse_instance_number "db-y" = inl e) /\
  derive_names "db-x" "db-y" =
    inr {| primary_num := "x"; standby_num := "y"; db_name := "ORAx";
           primary_db_unique_name := "ORAx"; standby_db_unique_name := "ORAx_STBY";
           primary_diskgroup := "DGORAx"; standby_diskgroup := "DGORAy" |} /\
  snd r = Returned tt /\
  length (List.filter is_remote_mutation (snd (fst r))) = 20.
Proof.
  vm_compute. repeat split; eauto.
Qed.

End WorkflowClaims.

(** * Part IV: further properties of the code *)

(** ** Identifiers and names *)

Module TextFacts.
Import Py Text.

Lemma append_cons (c : ascii) (a b : string) : String c a +:+ b = String c (a +:+ b).
Proof. reflexivity. Qed.

Lemma append_nil (b : string) : "" +:+ b = b.
Proof. reflexivity. Qed.

Lemma append_nil_r (a : string) : a +:+ "" = a.
Proof. induction a as [|c a IH]; [ reflexivity | rewrite append_cons, IH; reflexivity ]. Qed.

Lemma append_assoc (a b c : string) : (a +:+ b) +:+ c = a +:+ b +:+ c.
Proof. induction a as [|d a IH]; [ reflexivity | rewrite !append_cons, IH; reflexivity ]. Qed.

(** The first piece of a split holds no separator; the other pieces are the
    split of what follows the first separator. *)
Lemma split_first (sep : ascii) (s : string) :
  exists p ps, split sep s = p :: ps /\ contains sep p = false /\
    ((ps = [] /\ s = p) \/ (exists t, s = p +:+ String sep t /\ ps = split sep t)).
Proof.
  induction s as [|c s IH]; cbn.
  - exists "", []. split; [ reflexivity | ]. split; [ reflexivity | left; split; reflexivity ].
  - destruct (Ascii.eqb c sep) eqn:Hc.
    + apply Ascii.eqb_eq in Hc. subst c.
      exists "", (split sep s). split; [ reflexivity | ]. split; [ reflexivity | ].
      right. exists s. split; reflexivity.
    + destruct IH as (p & ps & Hs & Hp & Hrest). rewrite Hs.
      exists (String c p), ps. split; [ reflexivity | ]. split.
      * cbn. rewrite Hc. exact Hp.
      * destruct Hrest as [[-> ->] | (t & -> & ->)].
        -- left. split; reflexivity.
        -- right. exists t. split; reflexivity.
Qed.


Lemma split_no_separator (sep : ascii) (s : string) :
  contains sep s = false -> split sep s = [s].
Proof.
  induction s as [|c s IH]; cbn; [ reflexivity | ].
  intros H. apply orb_false_iff in H. destruct H as [Hc Hs].
  rewrite Hc, (IH Hs). reflexivity.
Qed.

Lemma split_app (sep : ascii) (p t : string) :
  contains sep p = false -> split sep (p +:+ String sep t) = p :: split sep t.
Proof.
  induction p as [|c p IH]; intros H.
  - rewrite append_nil. cbn. rewrite Ascii.eqb_refl. reflexivity.
  - cbn in H. apply orb_false_iff in H. destruct H as [Hc Hp].
    rewrite append_cons. cbn. rewrite Hc, (IH Hp). reflexivity.
Qed.

Lemma contains_app (c : ascii) (a b : string) :
  contains c (a +:+ b) = contains c a || contains c b.
Proof.
  induction a as [|d a IH]; [ reflexivity | ].
  rewrite append_cons. cbn. rewrite IH, orb_assoc. reflexivity.
Qed.

Lemma strip_prefix_Some (p s r : string) :
  strip_prefix p s = Some r <-> s = p +:+ r.
Proof.
  revert s. induction p as [|a p IH]; intros s.
  - cbn. rewrite append_nil. split; [ intros [= ->]; reflexivity | intros ->; reflexivity ].
  - rewrite append_cons. destruct s as [|b s]; cbn.
    + split; discriminate.
    + destruct (Ascii.eqb a b) eqn:Hab.
      * apply Ascii.eqb_eq in Hab. subst b. rewrite IH.
        split; [ intros ->; reflexivity | intros [= ->]; reflexivity ].
      * apply Ascii.eqb_neq in Hab. split; [ discriminate | intros [= -> _]; congruence ].
Qed.


Lemma take_digits_app (num rest : string) :
  only isdigit num = true -> starts_with_digit rest = false ->
  take_digits (num +:+ rest) = num.
Proof.
  induction num as [|c num IH]; intros Hd Hr.
  - rewrite append_nil. destruct rest as [|d rest]; [ reflexivity | ].
    cbn in *. rewrite Hr. reflexivity.
  - cbn in Hd. apply andb_true_iff in Hd. destruct Hd as [Hc Hd].
    rewrite append_cons. cbn. rewrite Hc, (IH Hd Hr). reflexivity.
Qed.

Lemma digit_not_hyphen (c : ascii) : isdigit c = true -> Ascii.eqb c "-" = false.
Proof.
  intros H. apply Ascii.eqb_neq. intros ->. discriminate H.
Qed.

Lemma all_digits_no_hyphen (s : string) : only isdigit s = true -> contains "-" s = false.
Proof.
  induction s as [|c s IH]; cbn; [ reflexivity | ].
  intros H. apply andb_true_iff in H. destruct H as [Hc Hs].
  rewrite (digit_not_hyphen c Hc), (IH Hs). reflexivity.
Qed.

End TextFacts.

Module StripFacts.
Import Py Text TextFacts.











End StripFacts.

Module NameProperties.
Import Py Names Text TextFacts.

(** X1. [ident.split("-")[1]] fails exactly on identifiers without a hyphen.
    Otherwise it is the text between the first hyphen and the next one (or
    the end): it holds no hyphen itself, and whatever precedes the first
    hyphen plays no part. *)
Theorem split_suffix_between_hyphens (ident : string) :
  match split_suffix ident with
  | inl e => e = IndexError "list index out of range" /\ contains "-" ident = false
  | inr num =>
      contains "-" num = false /\
      exists prefix rest,
        contains "-" prefix = false /\ ends_or_hyphen rest = true /\
        ident = prefix +:+ "-" +:+ num +:+ rest
  end.
Proof.
  unfold split_suffix.
  destruct (split_first "-" ident) as (p & ps & Hs & Hp & Hrest). rewrite Hs.
  destruct Hrest as [[-> ->] | (t & -> & ->)]; cbn [nth_error].
  - split; [ reflexivity | exact Hp ].
  - destruct (split_first "-" t) as (q & qs & Ht & Hq & Hrest). rewrite Ht.
    split; [ exact Hq | ]. exists p.
    destruct Hrest as [[-> ->] | (u & -> & ->)].
    + exists "". rewrite append_nil_r. repeat split; assumption || reflexivity.
    + exists (String "-" u). repeat split; assumption || reflexivity.
Qed.




Lemma parse_conventional (num rest : string) :
  num <> "" -> only isdigit num = true -> starts_with_digit rest = false ->
  parse_instance_number ("ora-" +:+ num +:+ rest) = inr num.
Proof.
  intros Hne Hd Hr. unfold parse_instance_number.
  assert (Hp : strip_prefix "ora-" ("ora-" +:+ num +:+ rest) = Some (num +:+ rest))
    by (apply strip_prefix_Some; reflexivity).
  rewrite Hp, (take_digits_app num rest Hd Hr).
  destruct num; [ congruence | reflexivity ].
Qed.

Lemma split_suffix_conventional (prefix num rest : string) :
  contains "-" prefix = false -> contains "-" num = false -> ends_or_hyphen rest = true ->
  split_suffix (prefix +:+ "-" +:+ num +:+ rest) = inr num.
Proof.
  intros Hp Hn Hr. unfold split_suffix.
  change ("-" +:+ num +:+ rest) with (String "-" (num +:+ rest)).
  rewrite (split_app "-" prefix _ Hp). cbn [nth_error].
  destruct rest as [|c rest].
  - rewrite append_nil_r, (split_no_separator "-" num Hn). reflexivity.
  - cbn in Hr. apply Ascii.eqb_eq in Hr. subst c.
    rewrite (split_app "-" num rest Hn). reflexivity.
Qed.

Lemma ends_or_hyphen_no_digit (rest : string) :
  ends_or_hyphen rest = true -> starts_with_digit rest = false.
Proof.
  destruct rest as [|c rest]; [ reflexivity | ].
  cbn. intros H. apply Ascii.eqb_eq in H. subst c. reflexivity.
Qed.

(** X3. On identifiers of the form ora-<digits>, optionally followed by a
    hyphen and more, the two scripts agree: the database and disk group
    names setup_dataguard.py derives are the ones setup_oracle.py gives to
    the same instances. *)
Theorem scripts_agree_on_conventional_identifiers (pnum prest snum srest : string) :
  pnum <> "" -> only isdigit pnum = true -> ends_or_hyphen prest = true ->
  snum <> "" -> only isdigit snum = true -> ends_or_hyphen srest = true ->
  let primary := "ora-" +:+ pnum +:+ prest in
  let standby := "ora-" +:+ snum +:+ srest in
  exists n, derive_names primary standby = inr n /\
    get_db_name primary = inr (db_name n) /\
    get_cdb_diskgroup_name primary = inr (primary_diskgroup n) /\
    get_cdb_diskgroup_name standby = inr (standby_diskgroup n) /\
    get_db_name standby = inr ("ORA" +:+ standby_num n).
Proof.
  intros Hpne Hpd Hpr Hsne Hsd Hsr primary standby.
  assert (Hp : split_suffix primary = inr pnum).
  { apply (split_suffix_conventional "ora" pnum prest);
      [ reflexivity | apply all_digits_no_hyphen; exact Hpd | exact Hpr ]. }
  assert (Hs : split_suffix standby = inr snum).
  { apply (split_suffix_conventional "ora" snum srest);
      [ reflexivity | apply all_digits_no_hyphen; exact Hsd | exact Hsr ]. }
  unfold derive_names, get_db_name, get_cdb_diskgroup_name. rewrite Hp, Hs.
  subst primary standby.
  rewrite (parse_conventional pnum prest Hpne Hpd (ends_or_hyphen_no_digit _ Hpr)).
  rewrite (parse_conventional snum srest Hsne Hsd (ends_or_hyphen_no_digit _ Hsr)).
  eexists. split; [ reflexivity | ]. cbn. repeat split.
Qed.

Lemma scripts_agree_on_conventional_identifiers_witness :
  exists n, derive_names "ora-1" "ora-2-b" = inr n /\
    get_db_name "ora-1" = inr (db_name n) /\
    get_cdb_diskgroup_name "ora-1" = inr (primary_diskgroup n) /\
    get_cdb_diskgroup_name "ora-2-b" = inr (standby_diskgroup n) /\
    get_db_name "ora-2-b" = inr ("ORA" +:+ standby_num n).
Proof.
  apply (scripts_agree_on_conventional_identifiers "1" "" "2" "-b");
    solve [ discriminate | reflexivity ].
Defined.



End NameProperties.

Module DiskgroupProperties.
Import Py Text TextFacts StripFacts Workflow Workflow.SetupOracle.



(** The default value, and a value typed with blanks and a stray comma. *)
Example extra_diskgroups_typed :
  parse_extra_diskgroups "DG1" = ["DG1"] /\
  parse_extra_diskgroups " DATA , RECO ,, " = ["DATA"; "RECO"].
Proof. split; reflexivity. Qed.

End DiskgroupProperties.

(** ** What the workflows call, and when they stop *)

Module StageFacts.
Import Py Gcloud RunFacts Workflow Stages.

Section Confined.
Context (P : subprocess_call -> Prop) (T : Prop).

Lemma confined_bind {A B : Type} (m : py A) (f : A -> py B) :
  confined P T m -> (forall a, confined P T (f a)) -> confined P T (bind m f).
Proof.
  intros Hm Hf. induction Hm; cbn; try (constructor; auto); auto.
Qed.

Lemma confined_mbind {A B : Type} (m : py A) (f : A -> py B) :
  confined P T m -> (forall a, confined P T (f a)) -> confined P T (m ≫= f).
Proof. apply confined_bind. Qed.

Lemma confined_mret {A : Type} (a : A) : confined P T (mret a).
Proof. constructor. Qed.

Lemma confined_run_cmd (g : gcloud) (chk cap : bool) :
  P (call_of g chk cap) -> confined P T (run_cmd g chk cap).
Proof.
  intros H. unfold run_cmd, subprocess_run. constructor; [ exact H | ].
  intros r. cbn. destruct (chk && negb (returncode r =? 0)%Z); constructor.
Qed.

Lemma confined_wait_for_instance (fuel : nat) (instance zone project : string) (timeout : Q) :
  T -> P (call_of (ComputeSsh instance zone project ProbeTrue) false true) ->
  confined P T (SetupOracle.wait_for_instance fuel instance zone project timeout).
Proof.
  intros HT HP. constructor; [ exact HT | ]. intros start.
  induction fuel as [|fuel IH]; cbn -[Qlt_bool]; [ constructor | ].
  constructor; [ exact HT | ].
  intros t. destruct (Qlt_bool (t - start) timeout); [ | constructor ].
  constructor; [ exact HP | ].
  intros r. destruct (returncode r =? 0)%Z; [ apply confined_mret | ].
  constructor; [ exact HT | exact IH ].
Qed.

Lemma confined_trace {St A : Type} (E : env St) (p : py A) :
  confined P T p -> forall s, Forall (event_confined P T) (snd (fst (run E s p))).
Proof.
  induction 1 as [a|e| |c k Hc Hk IH|k HT Hk IH|d k HT Hk IH]; intros s; cbn.
  - constructor.
  - constructor.
  - constructor.
  - destruct (on_run E s c) as [s1 r]. specialize (IH r s1).
    destruct (run E s1 (k r)) as [[s2 tr] o]. cbn in *. constructor; assumption.
  - destruct (on_time E s) as [s1 t]. specialize (IH t s1).
    destruct (run E s1 (k t)) as [[s2 tr] o]. cbn in *. constructor; assumption.
  - specialize (IH (on_sleep E s d)).
    destruct (run E (on_sleep E s d) k) as [[s2 tr] o]. cbn in *.
    constructor; assumption.
Qed.

End Confined.







End StageFacts.

(** Proves [confined] for a program written with the helpers of the scripts. *)
Ltac confined_steps :=
  repeat first
    [ apply StageFacts.confined_mbind
    | apply StageFacts.confined_bind
    | apply StageFacts.confined_run_cmd
    | apply StageFacts.confined_mret
    | apply StageFacts.confined_wait_for_instance
    | apply Stages.confined_sleep
    | apply Stages.confined_raise
    | apply Stages.confined_return
    | reflexivity
    | intro
    | match goal with
      | |- Stages.confined _ _ (if ?b then _ else _) => destruct b
      | |- Stages.confined _ _ (match ?x with _ => _ end) => destruct x
      end ].


(** Unfolds a [main] down to its [run_cmd] calls. *)
Ltac unfold_dataguard_main :=
  unfold Workflow.SetupDataguard.main, Workflow.given_or_config, Workflow.exit_unless_set,
    Gcloud.get_gcloud_config, Gcloud.get_instance_ip,
    Workflow.SetupDataguard.configure_primary_for_dataguard,
    Workflow.SetupDataguard.configure_bash_profiles,
    Workflow.SetupDataguard.configure_tns_entries,
    Workflow.SetupDataguard.configure_static_listener,
    Workflow.SetupDataguard.remove_standby_database,
    Workflow.SetupDataguard.create_standby_pfile,
    Workflow.SetupDataguard.start_standby_nomount,
    Workflow.SetupDataguard.duplicate_database,
    Workflow.SetupDataguard.start_managed_recovery,
    Workflow.SetupDataguard.fix_standby_redo_logs,
    Workflow.SetupDataguard.enable_log_shipping,
    Workflow.SetupDataguard.register_standby_with_cluster,
    Workflow.SetupDataguard.validate_dataguard,
    PasswordFile.setup_password_file, PasswordFile.sync_password_file_after_duplication,
    Gcloud.gcloud_ssh_capture, Gcloud.gcloud_scp, Gcloud.gcloud_ssh.

Ltac unfold_oracle_main :=
  unfold Workflow.SetupOracle.main, Workflow.given_or_config, Workflow.exit_unless_set,
    Gcloud.get_gcloud_config,
    Workflow.SetupOracle.delete_instance, Workflow.SetupOracle.create_instance,
    Workflow.SetupOracle.configure_kernel, Workflow.SetupOracle.setup_prerequisites,
    Workflow.SetupOracle.create_config_files, Workflow.SetupOracle.install_oracle,
    Workflow.SetupOracle.configure_oracle_sga, Workflow.SetupOracle.configure_asmfd,
    Workflow.SetupOracle.configure_asm_diskstring, Workflow.SetupOracle.validate_setup,
    Workflow.SetupOracle.gcloud_ssh.

Module StageProperties.
Import Py Names Gcloud PasswordFile RunFacts Workflow Stages StageFacts.

Lemma confined_oracle_main (fuel : nat) (args : SetupOracle.arguments) :
  confined (fun c => Oracle.enabled args (Oracle.stage_of (cmd c)) = true)
           (Oracle.enabled args Oracle.Waiting = true)
           (SetupOracle.main fuel args).
Proof.
  destruct args as [i p z b x sc sk si sa d].
  unfold_oracle_main. cbn [SetupOracle.instance SetupOracle.project SetupOracle.zone
    SetupOracle.swlib_bucket SetupOracle.extra_diskgroups SetupOracle.skip_create
    SetupOracle.skip_kernel SetupOracle.skip_install SetupOracle.skip_asmfd SetupOracle.delete].
  destruct d, sc, sk, si, sa; cbn [negb]; confined_steps.
Qed.

(** X6. Whatever the environment answers, every call [main] of
    setup_oracle.py makes belongs to a block the command line enables: with
    --delete nothing but the configuration queries and the deletion;
    otherwise no call of a block whose
    skip flag is set, no probing, clock reading or sleeping unless the
    create or the kernel block runs, and never a call of the other script. *)
Theorem oracle_main_respects_flags {St : Type} (E : env St) (s : St) (fuel : nat)
    (args : SetupOracle.arguments) :
  forallb (Oracle.event_enabled args) (snd (fst (run E s (SetupOracle.main fuel args)))) = true.
Proof.
  apply forallb_forall. intros ev Hev.
  assert (H := confined_trace _ _ E _ (confined_oracle_main fuel args) s).
  apply (proj1 (List.Forall_forall _ _) H) in Hev.
  destruct ev; exact Hev.
Qed.

Lemma confined_dataguard_main (args : SetupDataguard.arguments) :
  confined (fun c => Dataguard.enabled args (Dataguard.stage_of (cmd c)) = true)
           False (SetupDataguard.main args).
Proof.
  destruct args as [p sb pr z sp sd pw].
  unfold_dataguard_main. cbn [SetupDataguard.primary SetupDataguard.standby
    SetupDataguard.project SetupDataguard.zone SetupDataguard.skip_primary_config
    SetupDataguard.skip_duplication SetupDataguard.sys_password].
  destruct sp, sd; cbn [negb]; confined_steps.
Qed.

(** X7. Whatever the environment answers, every call [main] of
    setup_dataguard.py makes belongs to a block the command line enables:
    none of the primary configuration with --skip-primary-config, none of
    the duplication with --skip-duplication, no file transfer when both are
    given; and [main] never reads the clock or sleeps. *)
Theorem dataguard_main_respects_flags {St : Type} (E : env St) (s : St)
    (args : SetupDataguard.arguments) :
  forallb (Dataguard.event_enabled args) (snd (fst (run E s (SetupDataguard.main args)))) = true.
Proof.
  apply forallb_forall. intros ev Hev.
  assert (H := confined_trace _ _ E _ (confined_dataguard_main args) s).
  apply (proj1 (List.Forall_forall _ _) H) in Hev.
  destruct ev; solve [ exact Hev | destruct Hev ].
Qed.



End StageProperties.

Module RunProperties.
Import Py Names Gcloud PasswordFile RunFacts Workflow Stages StageFacts StageProperties.



End RunProperties.

Module ResolutionFacts.
Import Py Names Gcloud PasswordFile RunFacts Workflow Stages StageFacts.

(** The head of [main] of setup_dataguard.py, up to the two address
    lookups, followed by [k]. *)
Local Notation "'resolve_then' args k" :=
  (project ← given_or_config (SetupDataguard.project args) "project";
   zone ← given_or_config (SetupDataguard.zone args) "compute/zone";
   exit_unless_set project;;
   exit_unless_set zone;;
   match derive_names (SetupDataguard.primary args) (SetupDataguard.standby args) with
   | inl e => Raise e
   | inr n =>
       primary_ip ← get_instance_ip (SetupDataguard.primary args) zone project;
       standby_ip ← get_instance_ip (SetupDataguard.standby args) zone project;
       k n zone project primary_ip standby_ip
   end)
  (at level 10, args at level 9, k at level 9, only parsing).

Section AnyEnvironment.
Context {St : Type} (E : env St).

Local Ltac resolution_step :=
  match goal with
  | |- context [on_run E ?s ?c] =>
      let s1 := fresh "s" in
      let r := fresh "r" in
      let Hrc := fresh "Hrc" in
      destruct (on_run E s c) as [s1 r];
      destruct (returncode r =? 0)%Z eqn:Hrc
  | |- context [match strip ?x with _ => _ end] =>
      let Hv := fresh "Hv" in destruct (strip x) eqn:Hv
  | |- context [match derive_names ?a ?b with _ => _ end] =>
      let Hn := fresh "Hn" in destruct (derive_names a b) eqn:Hn
  end; cbn -[strip derive_names].

(** Either the run ends in the head, having made nothing but lookups, or the
    rest runs with the resolved values. *)
Lemma dataguard_resolution (args : SetupDataguard.arguments)
    (k : replication_names -> string -> string -> string -> string -> py unit) (s : St) :
  let p := resolve_then args k in
  (exists s' tr e,
     run E s p = (s', tr, Raised e) /\
     forallb (fun ev => is_config_query ev || negb (is_remote_mutation ev)) tr = true /\
     List.filter is_remote_mutation tr = [] /\
     forall e', derive_names (SetupDataguard.primary args) (SetupDataguard.standby args) = inl e' ->
       forallb is_config_query tr = true /\
       (e = e' \/ e = SystemExit 1 \/ exists code, e = CalledProcessError code))
  \/
  (exists n zone project pre s4 r1 r2,
     derive_names (SetupDataguard.primary args) (SetupDataguard.standby args) = inr n /\
     run E s p =
     (let '(s5, tr, o) := run E s4 (k n zone project (strip (stdout r1)) (strip (stdout r2))) in
      (s5,
       pre ++ Ran (call_of (InstancesDescribe (SetupDataguard.primary args) zone project) true true) r1
           :: Ran (call_of (InstancesDescribe (SetupDataguard.standby args) zone project) true true) r2
           :: tr,
       o)) /\
     zone <> "" /\ project <> "" /\
     forallb is_config_query pre = true /\
     returncode r1 = 0%Z /\ returncode r2 = 0%Z).
Proof.
  unfold given_or_config, exit_unless_set, get_gcloud_config, get_instance_ip,
    run_cmd, subprocess_run.
  destruct (SetupDataguard.project args) as [[|c1 p1]|],
           (SetupDataguard.zone args) as [[|c2 z1]|];
    cbn -[strip derive_names]; repeat resolution_step.
  all: try (left; do 3 eexists; split; [ reflexivity | ]; cbn;
            split; [ reflexivity | ]; split; [ reflexivity | ];
            intros e' He'; split; [ try reflexivity; congruence | ];
            solve [ left; congruence | right; left; reflexivity
                  | right; right; eexists; reflexivity | congruence ]).
  all: right;
    match goal with
    | |- context [run E ?s1 (?kk ?n ?z ?p (strip (stdout ?ra)) (strip (stdout ?rb)))] =>
        exists n, z, p;
        (eexists nil + eexists (cons _ nil) + eexists (cons _ (cons _ nil)));
        exists s1, ra, rb;
        (split; [ reflexivity | ]);
        (split; [ destruct (run E s1 (kk n z p (strip (stdout ra)) (strip (stdout rb))))
                    as [[? ?] ?]; cbn; reflexivity | ])
    end;
    (split; [ discriminate | ]); (split; [ discriminate | ]);
    (split; [ reflexivity | ]); split; apply Z.eqb_eq; assumption.
Qed.

Lemma resolution_before_mutation (args : SetupDataguard.arguments)
    (k : replication_names -> string -> string -> string -> string -> py unit) (s : St) :
  let p := resolve_then args k in
  let tr := snd (fst (run E s p)) in
  List.filter is_remote_mutation tr <> [] ->
  exists n zone project pre ip_p ip_s rest,
    derive_names (SetupDataguard.primary args) (SetupDataguard.standby args) = inr n /\
    zone <> "" /\ project <> "" /\
    forallb is_config_query pre = true /\
    returncode ip_p = 0%Z /\ returncode ip_s = 0%Z /\
    tr = pre
         ++ Ran (call_of (InstancesDescribe (SetupDataguard.primary args) zone project) true true) ip_p
         :: Ran (call_of (InstancesDescribe (SetupDataguard.standby args) zone project) true true) ip_s
         :: rest.
Proof.
  intros p tr. subst tr.
  destruct (dataguard_resolution args k s)
    as [(s' & tr & e & Hrun & _ & Hnone & _)
       | (n & zone & project & pre & s4 & r1 & r2 & Hn & Hrun & Hz & Hp & Hpre & Hr1 & Hr2)];
    fold p in Hrun; rewrite Hrun.
  - cbn. intros H. congruence.
  - intros _. destruct (run E s4 _) as [[s5 tr5] o5]. cbn.
    exists n, zone, project, pre, r1, r2, tr5. repeat split; assumption.
Qed.




End AnyEnvironment.
End ResolutionFacts.

Module ResolutionProperties.
Import Py Names Gcloud PasswordFile RunFacts Workflow Stages StageFacts World ResolutionFacts.

(** X9. Whatever the environment answers, [main] of setup_dataguard.py
    changes nothing on an instance before everything is resolved: a trace
    with a mutating call begins with queries of the local configuration
    only, followed by the two address lookups, primary first, both with
    exit status 0; project and zone are not empty and the names could be
    derived. *)
Theorem dataguard_main_resolves_before_it_mutates {St : Type} (E : env St) (s : St)
    (args : SetupDataguard.arguments) :
  let tr := snd (fst (run E s (SetupDataguard.main args))) in
  List.filter is_remote_mutation tr <> [] ->
  exists n zone project pre ip_p ip_s rest,
    derive_names (SetupDataguard.primary args) (SetupDataguard.standby args) = inr n /\
    zone <> "" /\ project <> "" /\
    forallb is_config_query pre = true /\
    returncode ip_p = 0%Z /\ returncode ip_s = 0%Z /\
    tr = pre
         ++ Ran (call_of (InstancesDescribe (SetupDataguard.primary args) zone project) true true) ip_p
         :: Ran (call_of (InstancesDescribe (SetupDataguard.standby args) zone project) true true) ip_s
         :: rest.
Proof. exact (resolution_before_mutation E args _ s). Qed.

Lemma dataguard_main_resolves_before_it_mutates_witness :
  let tr := snd (fst (run (world_env Demo.digest Demo.exact Demo.exact)
                        Demo.world_after_duplication
                        (SetupDataguard.main Samples.dataguard_args))) in
  exists n zone project pre ip_p ip_s rest,
    derive_names "ora-1" "ora-2" = inr n /\
    zone <> "" /\ project <> "" /\
    forallb is_config_query pre = true /\
    returncode ip_p = 0%Z /\ returncode ip_s = 0%Z /\
    tr = pre
         ++ Ran (call_of (InstancesDescribe "ora-1" zone project) true true) ip_p
         :: Ran (call_of (InstancesDescribe "ora-2" zone project) true true) ip_s
         :: rest.
Proof.
  apply (dataguard_main_resolves_before_it_mutates
           (world_env Demo.digest Demo.exact Demo.exact)
           Demo.world_after_duplication Samples.dataguard_args).
  vm_compute. discriminate.
Defined.





End ResolutionProperties.

Module OracleMainProperties.
Import Py Names Gcloud RunFacts Workflow Stages StageFacts.



End OracleMainProperties.

(** ** Waiting for an instance: how often it probes *)

Module ProbingFacts.
Import Py Gcloud RunFacts Workflow Workflow.SetupOracle Waiting WaitingFacts Stages.

Section SteadyClock.
Context {St : Type} (E : env St) (now_of : St -> Q).
Hypothesis clock : steady_clock E now_of.

(** Entering the loop [elapsed] seconds or more after the start: every probe
    made from here on began less than [timeout] after the start, and each
    one after the first began at least ten seconds after the one before. *)
Lemma wait_loop_probes (fuel : nat) (instance zone project : string)
    (timeout start elapsed : Q) (s : St) :
  (start + elapsed <= now_of s)%Q ->
  let n := calls (snd (fst (run E s (wait_loop fuel instance zone project timeout start)))) in
  n = 0 \/ (elapsed + 10 * inject_Z (Z.of_nat (pred n)) < timeout)%Q.
Proof.
  revert s elapsed. induction fuel as [|fuel IH]; intros s elapsed Hs; cbn zeta.
  - left. reflexivity.
  - rewrite wait_loop_S. cbn -[Qlt_bool Z.eqb wait_loop].
    destruct (on_time E s) as [s1 t] eqn:Ht.
    destruct (reading E now_of clock _ _ _ Ht) as [Hlo Hhi].
    destruct (Qlt_bool (t - start) timeout) eqn:Hlt; [ | left; reflexivity ].
    assert (Hin : (t - start < timeout)%Q).
    { unfold Qlt_bool in Hlt. apply negb_true_iff in Hlt.
      apply Qnot_le_lt. intros Hle. apply Qle_bool_iff in Hle. congruence. }
    cbn -[Qlt_bool Z.eqb wait_loop].
    destruct (on_run E s1 _) as [s2 r] eqn:Hr.
    assert (Hcall := calling E now_of clock _ _ _ _ Hr).
    cbn -[Qlt_bool Z.eqb wait_loop].
    destruct (returncode r =? 0)%Z; cbn -[Qlt_bool Z.eqb wait_loop].
    + right. unfold calls. cbn. change (inject_Z (Z.of_nat 0)) with 0%Q. lra.
    + assert (Hsleep := sleeping E now_of clock s2 10).
      assert (Hnext : (start + (elapsed + 10) <= now_of (on_sleep E s2 10))%Q) by lra.
      specialize (IH (on_sleep E s2 10) (elapsed + 10)%Q Hnext).
      destruct (run E (on_sleep E s2 10) (wait_loop fuel instance zone project timeout start))
        as [[s3 tr3] o3].
      cbn in IH. right. unfold calls in *. cbn.
      destruct (length (List.filter is_call tr3)) as [|m].
      * change (inject_Z (Z.of_nat 0)) with 0%Q. lra.
      * destruct IH as [H0 | Hn]; [ discriminate H0 | ].
        cbn [pred] in Hn.
        rewrite Nat2Z.inj_succ, <- Z.add_1_r, inject_Z_plus.
        change (inject_Z 1) with 1%Q. lra.
Qed.

End SteadyClock.

End ProbingFacts.

Module WaitingProperties.
Import Py Gcloud RunFacts Workflow Workflow.SetupOracle Waiting WaitingFacts Stages ProbingFacts.

(** X13. On a steady clock a deadline of zero seconds or less is over before
    the first probe: [wait_for_instance] reads the clock twice and raises
    TimeoutError without contacting the instance. *)
Theorem wait_for_instance_deadline_already_over {St : Type} (E : env St)
    (now_of : St -> Q) (fuel : nat) (instance zone project : string) (timeout : Q) (s : St) :
  steady_clock E now_of ->
  (timeout <= 0)%Q ->
  exists s' start t,
    run E s (wait_for_instance (S fuel) instance zone project timeout) =
    (s', [Clock start; Clock t], Raised (TimeoutError instance timeout)).
Proof.
  intros clock Hto. unfold wait_for_instance.
  cbn -[Qlt_bool Z.eqb wait_loop].
  destruct (on_time E s) as [s1 start] eqn:H1.
  destruct (reading E now_of clock _ _ _ H1) as [_ Hhi1].
  rewrite wait_loop_S. cbn -[Qlt_bool Z.eqb wait_loop].
  destruct (on_time E s1) as [s2 t] eqn:H2.
  destruct (reading E now_of clock _ _ _ H2) as [Hlo2 _].
  assert (Hlt : Qlt_bool (t - start) timeout = false).
  { unfold Qlt_bool. apply negb_false_iff, Qle_bool_iff. lra. }
  rewrite Hlt. cbn. exists s2, start, t. reflexivity.
Qed.

Lemma wait_for_instance_deadline_already_over_witness :
  exists s' start t,
    run Scripted.scripted_env Demo.demo_script
        (wait_for_instance 1 "ora-1" "zone" "project" 0) =
    (s', [Clock start; Clock t], Raised (TimeoutError "ora-1" 0)).
Proof.
  apply (wait_for_instance_deadline_already_over Scripted.scripted_env Scripted.now
           0 "ora-1" "zone" "project" 0%Q Demo.demo_script).
  - exact ScriptedFacts.scripted_clock.
  - vm_compute. discriminate.
Defined.

(** X14. On a steady clock [wait_for_instance] makes at most one probe per
    ten seconds of its deadline: if it has made n >= 1 probes, then
    10 * (n - 1) < timeout.  With the default of 300 seconds that is at most
    thirty probes. *)
Theorem wait_for_instance_probe_count {St : Type} (E : env St)
    (now_of : St -> Q) (fuel : nat) (instance zone project : string) (timeout : Q) (s : St) :
  steady_clock E now_of ->
  let n := calls (snd (fst (run E s (wait_for_instance fuel instance zone project timeout)))) in
  n = 0 \/ (10 * inject_Z (Z.of_nat (pred n)) < timeout)%Q.
Proof.
  intros clock. unfold wait_for_instance. cbn -[wait_loop].
  destruct (on_time E s) as [s1 start] eqn:H1.
  destruct (reading E now_of clock _ _ _ H1) as [_ Hhi1].
  assert (H := wait_loop_probes E now_of clock fuel instance zone project timeout start 0 s1).
  destruct (run E s1 (wait_loop fuel instance zone project timeout start))
    as [[s2 tr2] o2].
  cbn in *. unfold calls in *. cbn.
  destruct H as [H | H]; [ lra | left; exact H | right; lra ].
Qed.

Lemma wait_for_instance_probe_count_witness :
  let n := calls (snd (fst (run Scripted.scripted_env Demo.demo_script
                              (wait_for_instance 4 "ora-1" "zone" "project" 30)))) in
  n = 0 \/ (10 * inject_Z (Z.of_nat (pred n)) < 30)%Q.
Proof.
  apply (wait_for_instance_probe_count Scripted.scripted_env Scripted.now
           4 "ora-1" "zone" "project" 30%Q Demo.demo_script).
  exact ScriptedFacts.scripted_clock.
Defined.

End WaitingProperties.

(** ** The third block of the redo-log repair on any tables *)

Module StandbyLogBlockFacts.
Import StandbyLogs StandbyLogFacts.

Lemma max_group_none (rows : list log_row) : max_group rows = None -> rows = [].
Proof.
  destruct rows as [|r rows]; [ reflexivity | ].
  cbn. destruct (max_group rows); discriminate.
Qed.

(** An ADD whose group number is NULL is caught, every time. *)
Lemma add_loop_null (dg : string) (size_mb : Q) (todo : list N) (d : database) :
  fold_left (fun d i => attempt d (AddStandbyLogfileGroup None dg size_mb)) todo d = d.
Proof.
  induction todo as [|i todo IH]; cbn; [ reflexivity | exact IH ].
Qed.

(** The block on any tables: what it leaves in V$STANDBY_LOG can be read off
    the online groups alone. *)
Lemma recreate_standby_logs_any (diskgroup : string) (db : database) :
  V_LOG (recreate_standby_logs diskgroup db) = V_LOG db /\
  V_STANDBY_LOG (recreate_standby_logs diskgroup db) =
  match max_group (V_LOG db) with
  | None => []
  | Some m =>
      List.map
        (new_row m (log_size_or_default
                      (option_map (fun b => b / 1024 / 1024)%Q (max_bytes (V_LOG db)))))
        (for_range 1 (length (V_LOG db) + 1))
  end.
Proof.
  destruct (drop_loop_empties db) as [HL1 HS1]. cbn zeta in HL1, HS1.
  unfold recreate_standby_logs.
  destruct (max_group (V_LOG db)) as [m|] eqn:Hm; cbn [option_map].
  - assert (Hne : V_LOG db <> []) by (intros H; rewrite H in Hm; discriminate Hm).
    destruct (max_group_bound _ Hne) as (m' & Hm' & Hbound).
    assert (m' = m) by congruence. subst m'.
    destruct (for_range_from_one (length (V_LOG db) + 1)) as (Hnd & Hge & Hlen).
    match goal with
    | |- context [fold_left ?f (for_range 1 ?n) ?d1] =>
        match f with
        | (fun d i => attempt d (AddStandbyLogfileGroup _ _ ?size)) =>
            destruct (add_loop m diskgroup size (for_range 1 n) [] d1) as [HL HS]
        end
    end.
    + intros r Hr. rewrite HL1 in Hr. exact (Hbound r Hr).
    + rewrite HS1. reflexivity.
    + exact Hnd.
    + exact Hge.
    + cbn zeta in HL, HS. split; [ rewrite HL; exact HL1 | exact HS ].
  - rewrite add_loop_null. split; [ exact HL1 | exact HS1 ].
Qed.

Lemma database_eq (d1 d2 : database) :
  V_LOG d1 = V_LOG d2 -> V_STANDBY_LOG d1 = V_STANDBY_LOG d2 -> d1 = d2.
Proof. destruct d1, d2. cbn. intros -> ->. reflexivity. Qed.

End StandbyLogBlockFacts.

Module StandbyLogProperties.
Import StandbyLogs StandbyLogFacts StandbyLogBlockFacts.

(** X15. Running the block a second time changes nothing: whatever the
    tables held at first, the standby groups it finds the second time are
    dropped and created again with the same numbers and sizes. *)
Theorem recreate_standby_logs_idempotent (diskgroup : string) (db : database) :
  recreate_standby_logs diskgroup (recreate_standby_logs diskgroup db)
  = recreate_standby_logs diskgroup db.
Proof.
  destruct (recreate_standby_logs_any diskgroup db) as [HL HS].
  destruct (recreate_standby_logs_any diskgroup (recreate_standby_logs diskgroup db))
    as [HL' HS'].
  apply database_eq; [ exact HL' | ].
  rewrite HS', HL, HS. reflexivity.
Qed.






End StandbyLogProperties.

(** ** The password-file stages on the host model, continued *)

Module HostFacts.
Import Py Gcloud PasswordFile RunFacts World Hosts PasswordFileFacts WorldFacts SyncOnWorld.

Lemma same_homes_refl (w : world) : same_homes w w.
Proof. intros i h H. exists h. split; [ exact H | reflexivity ]. Qed.

Lemma same_homes_trans (w1 w2 w3 : world) :
  same_homes w1 w2 -> same_homes w2 w3 -> same_homes w1 w3.
Proof.
  intros H12 H23 i h H. destruct (H12 i h H) as (h2 & H2 & E2).
  destruct (H23 i h2 H2) as (h3 & H3 & E3). exists h3. split; [ exact H3 | congruence ].
Qed.

Lemma same_homes_set_host (w : world) (i : string) (h h' : host) :
  hosts w !! i = Some h -> oracle_home h' = oracle_home h -> same_homes w (set_host w i h').
Proof.
  intros Hi Hh j hj Hj. rewrite hosts_set_host. destruct (decide (i = j)) as [<-|Hne].
  - exists h'. split; [ reflexivity | congruence ].
  - exists hj. split; [ exact Hj | reflexivity ].
Qed.

Section Semantics.
Variables md5 transfer orapwd : string -> string.

Lemma exec_remote_oracle_home (h h' : host) (command : remote_command) (r : completed_process) :
  exec_remote md5 orapwd h command = (h', r) -> oracle_home h' = oracle_home h.
Proof.
  destruct command; cbn;
    repeat match goal with
           | |- context [match ?x with _ => _ end] => destruct x
           end;
    intros [= <- <-]; reflexivity.
Qed.

Lemma world_run_same_homes (w w' : world) (c : subprocess_call) (r : completed_process) :
  world_run md5 transfer orapwd w c = (w', r) -> same_homes w w'.
Proof.
  unfold world_run. destruct (cmd c) as [k|i z p command|z p src dst|i z p|i z p d e|i z p|i z p];
    try (intros [= <- <-]; apply same_homes_refl).
  - destruct (hosts w !! i) as [h|] eqn:Hi; [ | intros [= <- <-]; apply same_homes_refl ].
    destruct (exec_remote md5 orapwd h command) as [h' r'] eqn:He. intros [= <- <-].
    apply (same_homes_set_host w i h h' Hi). exact (exec_remote_oracle_home _ _ _ _ He).
  - unfold exec_scp. destruct src as [lp|i path], dst as [lp'|i' path'];
      try (intros [= <- <-]; apply same_homes_refl).
    + destruct (local_fs w !! lp), (hosts w !! i') as [h|] eqn:Hi;
        intros [= <- <-]; try apply same_homes_refl.
      apply (same_homes_set_host w i' h _ Hi). reflexivity.
    + destruct (hosts w !! i) as [h|]; [ destruct (fs h !! path) | ];
        intros [= <- <-]; intros j hj Hj; exists hj; (split; [ exact Hj | reflexivity ]).
Qed.

Lemma run_same_homes {A : Type} (p : py A) (w w' : world) (tr : list event) (o : outcome A) :
  run (world_env md5 transfer orapwd) w p = (w', tr, o) -> same_homes w w'.
Proof.
  revert w w' tr o. induction p as [a|e| |c k IH|k IH|d k IH]; intros w w' tr o; cbn.
  - intros [= <- <- <-]. apply same_homes_refl.
  - intros [= <- <- <-]. apply same_homes_refl.
  - intros [= <- <- <-]. apply same_homes_refl.
  - destruct (world_run md5 transfer orapwd w c) as [w1 r] eqn:H1.
    destruct (run (world_env md5 transfer orapwd) w1 (k r)) as [[w2 tr2] o2] eqn:H2.
    intros [= <- <- <-].
    exact (same_homes_trans _ _ _ (world_run_same_homes _ _ _ _ H1) (IH _ _ _ _ _ H2)).
  - destruct (run (world_env md5 transfer orapwd) w (k (clock w))) as [[w2 tr2] o2] eqn:H2.
    intros [= <- <- <-]. exact (IH _ _ _ _ _ H2).
  - destruct (run (world_env md5 transfer orapwd) _ k) as [[w2 tr2] o2] eqn:H2.
    intros [= <- <- <-]. apply IH in H2.
    intros i h Hi. exact (H2 i h Hi).
Qed.

End Semantics.

End HostFacts.

Module HostProperties.
Import Py Gcloud PasswordFile RunFacts World Hosts PasswordFileFacts WorldFacts SyncOnWorld HostFacts.

Section Semantics.
Variables md5 transfer orapwd : string -> string.

(** X19. On the host model, once the synchronisation stage has returned,
    running it again finds equal fingerprints: the second run makes its
    three queries, transfers nothing, restarts nothing and leaves every host
    as it found it. *)
Theorem sync_again_is_a_no_op (w w' : world) (p sb z pr db : string) (tr : list event) :
  run (world_env md5 transfer orapwd) w
      (sync_password_file_after_duplication p sb z pr db) = (w', tr, Returned tt) ->
  exists tr2,
    run (world_env md5 transfer orapwd) w'
        (sync_password_file_after_duplication p sb z pr db) = (w', tr2, Returned tt) /\
    length tr2 = 3 /\
    List.filter is_remote_mutation tr2 = [].
Proof.
  intros Hrun.
  assert (Hhomes := run_same_homes md5 transfer orapwd _ _ _ _ _ Hrun).
  apply (sync_world_run md5 transfer orapwd) in Hrun.
  destruct Hrun as (hp & Hp & Hsome & Hfp & _).
  destruct (Hhomes p hp Hp) as (hp' & Hp' & Hhome).
  unfold fingerprint in Hfp, Hsome. rewrite Hp' in Hfp.
  destruct (hosts w' !! sb) as [hs'|] eqn:Hs'; [ | discriminate Hfp ].
  injection Hfp as Hfp.
  assert (Hpath : orapw_path_of hp' db = orapw_path_of hp db)
    by (unfold orapw_path_of; rewrite Hhome; reflexivity).
  rewrite <- Hpath in Hfp.
  eexists. split.
  - apply (sync_short_circuit_run (world_env md5 transfer orapwd) p sb z pr db
             w' w' w' w'
             (ok (oracle_home hp' +:+ nl))
             (ok (md5sum_output md5 hp' (orapw_path_of hp' db)))
             (ok (md5sum_output md5 hs' (orapw_path_of hp' db)))).
    + cbn. unfold world_run. cbn. rewrite Hp'. cbn. rewrite (set_host_same _ _ _ Hp').
      reflexivity.
    + reflexivity.
    + cbn -[strip String.append]. unfold world_run. cbn -[strip String.append].
      rewrite Hp'. cbn -[strip String.append]. rewrite (set_host_same _ _ _ Hp').
      reflexivity.
    + reflexivity.
    + cbn -[strip String.append]. unfold world_run. cbn -[strip String.append].
      rewrite Hs'. cbn -[strip String.append]. rewrite (set_host_same _ _ _ Hs').
      reflexivity.
    + reflexivity.
    + exact Hfp.
  - split; reflexivity.
Qed.

End Semantics.

Lemma sync_again_is_a_no_op_witness :
  let E := world_env Demo.digest Demo.exact Demo.exact in
  let r := run E Demo.world_after_duplication
             (sync_password_file_after_duplication "ora-1" "ora-2" "zone" "project" "ORA1") in
  exists tr2,
    run E (fst (fst r))
        (sync_password_file_after_duplication "ora-1" "ora-2" "zone" "project" "ORA1")
    = (fst (fst r), tr2, Returned tt) /\
    length tr2 = 3 /\
    List.filter is_remote_mutation tr2 = [].
Proof.
  intros E r.
  apply (sync_again_is_a_no_op Demo.digest Demo.exact Demo.exact
           Demo.world_after_duplication (fst (fst r)) "ora-1" "ora-2" "zone" "project" "ORA1"
           (snd (fst r))).
  vm_compute. reflexivity.
Defined.

End HostProperties.

Module SetupOnWorld.
Import Py Gcloud PasswordFile RunFacts World Hosts PasswordFileFacts WorldFacts SyncOnWorld HostFacts.

(** The password file of an instance is not its staging copy. *)
Lemma orapw_not_staging (home db : string) :
  home +:+ "/dbs/orapw" +:+ db <> "/tmp/orapw" +:+ db.
Proof.
  intros H. assert (L := f_equal String.length H).
  rewrite !length_app_string in L. simpl in L.
  destruct home; [ discriminate H | simpl in L; lia ].
Qed.

Section Semantics.
Variables md5 transfer orapwd : string -> string.

(** X20. On the host model, with both instances present, the stage
    [setup_password_file] always returns, after six calls.  It leaves the
    primary with the image [orapwd] wrote, the standby with what the two
    transfers made of it, owned by oracle:oinstall with mode 640, no staging
    copy under /tmp on either instance, the primary restarted once and the
    standby not restarted. *)
Theorem setup_password_file_installs_transferred_copy
    (w : world) (p sb z pr db pw : string) (hp hs : host) :
  hosts w !! p = Some hp -> hosts w !! sb = Some hs -> p <> sb ->
  exists w' tr hp' hs',
    run (world_env md5 transfer orapwd) w (setup_password_file p sb z pr db pw)
      = (w', tr, Returned tt) /\
    length tr = 6 /\
    hosts w' !! p = Some hp' /\ hosts w' !! sb = Some hs' /\
    fs hp' !! (oracle_home hp +:+ "/dbs/orapw" +:+ db) =
      Some {| content := orapwd pw; owner := "oracle:oinstall"; mode := "640" |} /\
    fs hs' !! (oracle_home hs +:+ "/dbs/orapw" +:+ db) =
      Some {| content := transfer (transfer (orapwd pw));
              owner := "oracle:oinstall"; mode := "640" |} /\
    fs hp' !! ("/tmp/orapw" +:+ db) = None /\
    fs hs' !! ("/tmp/orapw" +:+ db) = None /\
    restarts hp' = S (restarts hp) /\
    restarts hs' = restarts hs.
Proof.
  intros Hp Hs Hne.
  unfold setup_password_file, gcloud_ssh, gcloud_scp, run_cmd, subprocess_run.
  wsimp. rewrite Hp. wsimp.
  set (orapw := oracle_home hp +:+ "/dbs/orapw" +:+ db).
  set (tmp := "/tmp/orapw" +:+ db).
  assert (Hpt : orapw <> tmp) by apply orapw_not_staging.
  rewrite (cp_lookup _ _ _ _ (lookup_insert_eq _ _ _)), chmod_insert. wsimp.
  wnorm. rewrite Hs. wsimp. wnorm.
  set (orapw_s := oracle_home hs +:+ "/dbs/orapw" +:+ db).
  assert (Hst : orapw_s <> tmp) by apply orapw_not_staging.
  rewrite mv_insert, chown_insert, chmod_insert. wsimp.
  assert (Hne' : sb <> p) by congruence.
  wnorm.
  do 4 eexists.
  split; [ reflexivity | ]. split; [ reflexivity | ].
  split; [ wnorm; reflexivity | ]. split; [ wnorm; reflexivity | ].
  cbn [fs restarts restarted set_fs].
  repeat split.
  - rewrite lookup_delete_ne, lookup_insert_ne, lookup_insert_eq
      by exact (not_eq_sym Hpt). reflexivity.
  - apply lookup_insert_eq.
  - apply lookup_delete_eq.
  - rewrite lookup_insert_ne by exact Hst. apply lookup_delete_eq.
Qed.

End Semantics.
Lemma setup_password_file_installs_transferred_copy_witness :
  let hp := Demo.instance_with "primary-image" in
  let hs := Demo.instance_with "rman-image" in
  exists w' tr hp' hs',
    run (world_env Demo.digest Demo.damaged Demo.exact) Demo.world_after_duplication
        (setup_password_file "ora-1" "ora-2" "zone" "project" "ORA1" "secret")
      = (w', tr, Returned tt) /\
    length tr = 6 /\
    hosts w' !! "ora-1" = Some hp' /\ hosts w' !! "ora-2" = Some hs' /\
    fs hp' !! (oracle_home hp +:+ "/dbs/orapw" +:+ "ORA1") =
      Some {| content := Demo.exact "secret"; owner := "oracle:oinstall"; mode := "640" |} /\
    fs hs' !! (oracle_home hs +:+ "/dbs/orapw" +:+ "ORA1") =
      Some {| content := Demo.damaged (Demo.damaged (Demo.exact "secret"));
              owner := "oracle:oinstall"; mode := "640" |} /\
    fs hp' !! ("/tmp/orapw" +:+ "ORA1") = None /\
    fs hs' !! ("/tmp/orapw" +:+ "ORA1") = None /\
    restarts hp' = S (restarts hp) /\
    restarts hs' = restarts hs.
Proof.
  apply (setup_password_file_installs_transferred_copy Demo.digest Demo.damaged Demo.exact
           Demo.world_after_duplication "ora-1" "ora-2" "zone" "project" "ORA1" "secret"
           (Demo.instance_with "primary-image") (Demo.instance_with "rman-image")).
  - reflexivity.
  - reflexivity.
  - discriminate.
Defined.

End SetupOnWorld.

(** ** The first two blocks of the redo-log repair *)

Module OnlineLogFacts.
Import RedoLogPaths StandbyLogs OnlineLogs.




Section Blocks.
Context {Db : Type} (S : server Db).




End Blocks.

End OnlineLogFacts.

Module OnlineLogProperties.
Import RedoLogPaths StandbyLogs OnlineLogs OnlineLogFacts.



(** On a database that accepts every statement: group 2, with two flagged
    members, is dropped and added twice and counted twice; the current
    group 1 is cleared, dropped and added by the second block. *)
Example repair_on_accepting_server :
  let first := fix_noncurrent_groups Samples.accepting_server "DGORA2" tt in
  let size := v_log_size (logs Samples.accepting_server tt) in
  (size == 200)%Q /\
  List.map fst (issued first) =
    [ DropLogfileGroup 2; AddLogfileGroup 2 "DGORA2" size;
      DropLogfileGroup 2; AddLogfileGroup 2 "DGORA2" size ] /\
  v_invalid_count first = 2%N /\
  List.map fst (snd (fix_current_group Samples.accepting_server "DGORA2" tt)) =
    [ ClearLogfileGroup 1; DropLogfileGroup 1; AddLogfileGroup 1 "DGORA2" size ].
Proof. vm_compute. repeat split; reflexivity. Qed.

End OnlineLogProperties.
